(** * The chat transcript parser (chat-parser/main.go)

    A shallow embedding of the Go program that turns the line-delimited JSON
    stream of an agent session into a coloured transcript on standard output
    and one Buildkite annotation per entry, optionally copying the raw lines
    to a capture file.

    Conventions.
    - A Go [string] is a sequence of bytes: [string] of the Standard Library
      (one [ascii] per byte).  [len(s)] is [String.length s], [s[:n]] and
      [s[n:]] are [substring]s.  Non-ASCII literals of the source are their
      UTF-8 bytes.
    - A Go [int] is a [Z] kept in the 64-bit range by [wrap_int].
    - [interface{}] is [option V]: [None] is the nil interface, [Some v] a
      decoded JSON value of the abstract type [V].
    - The Go standard library the program calls but does not define
      ([strings.TrimSpace], [strings.ToUpper], [encoding/json], the rune
      count behind [%-45s]) and the outside world (the clock, the
      [buildkite-agent] process) are parameters.
    - Effects are a chronological trace of [event]s carried in [World].
    - [main] (argument parsing, opening the input, the header lines) is not
      modelled: a run starts at [initial] in one of the two loops. *)

From Stdlib Require Import String Ascii List ZArith Lia Bool DecimalString.
From Stdlib Require DecimalPos DecimalZ Sorted Finite.
Import ListNotations.
Local Open Scope list_scope.
Local Open Scope string_scope.

Set Implicit Arguments.

(** ** Go string literals *)

Definition LF : ascii := ascii_of_nat 10.
Definition ESC : ascii := ascii_of_nat 27.
Definition QUOTE : ascii := ascii_of_nat 34.
Definition BACKSLASH : ascii := ascii_of_nat 92.

(** [lit] reads a literal the way the Go lexer does for the two escapes the
    source uses: backslash-n is a line feed and backslash-033 is ESC. *)
Fixpoint lit (s : string) : string :=
  match s with
  | EmptyString => EmptyString
  | String c r =>
      if Ascii.eqb c BACKSLASH then
        match r with
        | String "n" r' => String LF (lit r')
        | String "0" (String "3" (String "3" r')) => String ESC (lit r')
        | _ => String c (lit r)
        end
      else String c (lit r)
  end.

(** [json_lit] writes a JSON text with single quotes standing for the double
    quotes of the real line. *)
Fixpoint json_lit (s : string) : string :=
  match s with
  | EmptyString => EmptyString
  | String c r => String (if Ascii.eqb c "'" then QUOTE else c) (json_lit r)
  end.

Definition nl : string := String LF EmptyString.

(** ANSI color codes (lines 15-27). *)
Definition ColorReset : string := Eval cbv in lit "\033[0m".
Definition ColorBold : string := Eval cbv in lit "\033[1m".
Definition ColorDim : string := Eval cbv in lit "\033[2m".
Definition ColorRed : string := Eval cbv in lit "\033[31m".
Definition ColorGreen : string := Eval cbv in lit "\033[32m".
Definition ColorYellow : string := Eval cbv in lit "\033[33m".
Definition ColorBlue : string := Eval cbv in lit "\033[34m".
Definition ColorMagenta : string := Eval cbv in lit "\033[35m".
Definition ColorCyan : string := Eval cbv in lit "\033[36m".
Definition ColorWhite : string := Eval cbv in lit "\033[37m".
Definition ColorGray : string := Eval cbv in lit "\033[90m".

(** ** The parts of package [strings] and [fmt] that are plain byte work *)

(** [strings.Split(s, sep)] for a one-byte separator: always at least one
    piece, [Split "" sep = [""]]. *)
Fixpoint Split (s : string) (sep : ascii) : list string :=
  match s with
  | EmptyString => [EmptyString]
  | String c r =>
      if Ascii.eqb c sep then EmptyString :: Split r sep
      else match Split r sep with
           | [] => [String c EmptyString]
           | piece :: pieces => String c piece :: pieces
           end
  end.

(** [strings.Join(elems, sep)]. *)
Definition Join (elems : list string) (sep : string) : string :=
  String.concat sep elems.

(** [strings.HasPrefix(s, "{")]. *)
Definition HasPrefix_brace (s : string) : bool :=
  match s with
  | String c _ => Ascii.eqb c "{"
  | EmptyString => false
  end.

(** [s != ""]. *)
Definition nonEmpty (s : string) : bool := negb (s =? "").

Fixpoint repeat_char (c : ascii) (n : nat) : string :=
  match n with
  | O => EmptyString
  | S k => String c (repeat_char c k)
  end.

(** The verb [%d]. *)
Definition fmt_d (z : Z) : string := NilZero.string_of_int (Z.to_int z).

(** The verbs [%02d] and [%03d]: zeros up to [width], the sign counted in
    the width and written first. *)
Definition fmt_0d (width : nat) (z : Z) : string :=
  let digits := NilZero.string_of_uint (N.to_uint (Z.abs_N z)) in
  if (z <? 0)%Z
  then "-" ++ repeat_char "0" (width - 1 - String.length digits) ++ digits
  else repeat_char "0" (width - String.length digits) ++ digits.

(** A Go [int] on a 64-bit platform: two's-complement wrap-around. *)
Definition wrap_int (z : Z) : Z :=
  ((z + 2 ^ 63) mod 2 ^ 64 - 2 ^ 63)%Z.

(** [formatRelativeTime] (lines 33-43), from [int(elapsed.Seconds())]. *)
Definition formatRelativeTime (totalSeconds : Z) : string :=
  let hours := Z.quot totalSeconds 3600 in
  let minutes := Z.quot (Z.rem totalSeconds 3600) 60 in
  let seconds := Z.rem totalSeconds 60 in
  if (0 <? hours)%Z
  then fmt_0d 2 hours ++ ":" ++ fmt_0d 2 minutes ++ ":" ++ fmt_0d 2 seconds
  else fmt_0d 2 minutes ++ ":" ++ fmt_0d 2 seconds.

(** ** The event model (lines 318-355) *)

Module ContentItem.
Record t (V : Type) : Type := mk {
  Type_ : string;
  Text : string;
  ID : string;
  Name : string;
  Input : option V;
  ToolUseID : string;
  Content : option V;
  IsError : bool
}.
End ContentItem.

Module Usage.
Record t : Type := mk { InputTokens : Z; OutputTokens : Z }.
End Usage.

(** The anonymous struct of the field [Message.Message]. *)
Module Body.
Record t (V : Type) : Type := mk {
  ID : string;
  Type_ : string;
  Role : string;
  Model : string;
  Content : list (ContentItem.t V);
  Usage : Usage.t
}.
End Body.

Module Message.
Record t (V : Type) : Type := mk {
  Type_ : string;
  Subtype : string;
  Message : Body.t V;
  SessionID : string;
  Tools : list string;
  Model : string
}.
End Message.

Module ChatEntry.
Record t : Type := mk {
  LineNumber : Z;
  Speaker : string;
  Content : string;
  Timestamp : string;
  IsJSON : bool;
  RawLine : string
}.
End ChatEntry.

(** ** The library and the world the program runs against *)

(** Package [strings] (Unicode-aware) and the rune count [fmt] pads by. *)
Class Strings : Type := {
  TrimSpace : string -> string;
  ToUpper : string -> string;
  RuneCountInString : string -> nat
}.

(** Package [encoding/json].  A decoder returns [None] where Go returns a
    non-nil error.  [MarshalIndent] is the call with prefix [""] and indent
    two spaces, the only one the program makes.  The law is the library's:
    [Unmarshal] checks the syntax of its input before decoding anything. *)
Class JSON (V : Type) : Type := {
  Unmarshal_Message : string -> option (Message.t V);
  Unmarshal_any : string -> option (option V);
  Marshal : option V -> option string;
  MarshalIndent : option V -> option string;
  Valid : string -> bool;
  Unmarshal_Message_Valid :
    forall s msg, Unmarshal_Message s = Some msg -> Valid s = true
}.

(** ** Progressive disclosure (lines 182-216 and 263-299)

    The source writes the same block twice, with [maxPreviewLength] 300 for
    a tool input and 400 for a tool result. *)

(** Lines 182-185 and 264-267. *)
Definition needsDisclosure (maxPreviewLength : nat) (s : string) : bool :=
  let lines := Split s LF in
  (2 <? List.length lines)%nat || (maxPreviewLength <? String.length s)%nat.

(** Lines 192-207 and 274-289: [(preview, remaining)]. *)
Definition previewRemaining (maxPreviewLength : nat) (s : string)
  : string * string :=
  let lines := Split s LF in
  if (2 <? List.length lines)%nat then
    (Join (firstn 2 lines) nl, Join (skipn 2 lines) nl)
  else if (maxPreviewLength <? String.length s)%nat then
    (substring 0 maxPreviewLength s ++ "...",
     substring maxPreviewLength (String.length s - maxPreviewLength) s)
  else (s, EmptyString).

Definition moreInput (remaining : string) : string :=
  lit "\n\n<details>\n<summary>Show more input...</summary>\n\n```json\n"
  ++ remaining ++ lit "\n```\n\n</details>".

Definition moreResult (remaining : string) : string :=
  lit "\n\n<details>\n<summary>Show more...</summary>\n\n```\n"
  ++ remaining ++ lit "\n```\n\n</details>".

(** Lines 180-217: what [toolDesc] becomes for a given [toolInput]. *)
Definition describeToolInput (toolDesc toolInput : string) : string :=
  if nonEmpty toolInput && negb (toolInput =? "{}") then
    if negb (needsDisclosure 300 toolInput) then
      toolDesc ++ " with " ++ toolInput
    else
      let '(preview, remaining) := previewRemaining 300 toolInput in
      if nonEmpty remaining
      then toolDesc ++ " with " ++ preview ++ moreInput remaining
      else toolDesc ++ " with " ++ preview
  else toolDesc.

(** Lines 263-299: the part appended for a non-empty [resultContent]. *)
Definition describeToolResult (errorIndicator resultContent : string)
  : string :=
  if negb (needsDisclosure 400 resultContent) then
    errorIndicator ++ nl ++ resultContent
  else
    let '(preview, remaining) := previewRemaining 400 resultContent in
    if nonEmpty remaining
    then errorIndicator ++ nl ++ preview ++ moreResult remaining
    else errorIndicator ++ nl ++ preview.

(** Go's [append(slice, x)]. *)
Definition append {A : Type} (slice : list A) (x : A) : list A :=
  (slice ++ [x])%list.

(** ** Classification *)

Section Classifier.

Context {Str : Strings} {V : Type} {J : JSON V}.

(** Lines 172-177 (with [json.MarshalIndent]) and 545-550 (with
    [json.Marshal]): the serialized [Input], [""] when it is nil or cannot
    be serialized. *)
Definition serializeInput (marshal : option V -> option string)
  (contentItem : ContentItem.t V) : string :=
  match ContentItem.Input contentItem with
  | None => EmptyString
  | Some v =>
      match marshal (Some v) with
      | Some inputBytes => inputBytes
      | None => EmptyString
      end
  end.

(** Lines 238-255, repeated verbatim at 580-597: [resultContent]. *)
Definition resultContentOf (contentItem : ContentItem.t V) : string :=
  if nonEmpty (ContentItem.Text contentItem) then
    let resultContent := ContentItem.Text contentItem in
    if Valid resultContent then
      match Unmarshal_any resultContent with
      | Some jsonObj =>
          match MarshalIndent jsonObj with
          | Some prettyBytes => prettyBytes
          | None => resultContent
          end
      | None => resultContent
      end
    else resultContent
  else
    match ContentItem.Content contentItem with
    | Some v =>
        match MarshalIndent (Some v) with
        | Some contentBytes => contentBytes
        | None => EmptyString
        end
    | None => EmptyString
    end.

(** The body of the loop at lines 165-220. *)
Definition cleanAssistantItem (contentParts : list string)
  (contentItem : ContentItem.t V) : list string :=
  if ContentItem.Type_ contentItem =? "text" then
    if nonEmpty (ContentItem.Text contentItem)
    then append contentParts (ContentItem.Text contentItem)
    else contentParts
  else if ContentItem.Type_ contentItem =? "tool_use" then
    let toolInput := serializeInput MarshalIndent contentItem in
    let toolDesc := "🔧 Using tool: " ++ ContentItem.Name contentItem in
    append contentParts (describeToolInput toolDesc toolInput)
  else contentParts.

(** The body of the loop at lines 230-306, on [(contentParts, hasError)]. *)
Definition cleanUserItem (acc : list string * bool)
  (contentItem : ContentItem.t V) : list string * bool :=
  let '(contentParts, hasError) := acc in
  if ContentItem.Type_ contentItem =? "tool_result" then
    let hasError :=
      if ContentItem.IsError contentItem then true else hasError in
    let resultContent := resultContentOf contentItem in
    if nonEmpty resultContent then
      let errorIndicator :=
        if ContentItem.IsError contentItem
        then "❌ Tool error:" else "✅ Tool result:" in
      (append contentParts (describeToolResult errorIndicator resultContent),
       hasError)
    else (append contentParts "✅ Tool result received", hasError)
  else if nonEmpty (ContentItem.Text contentItem) then
    (append contentParts (ContentItem.Text contentItem), hasError)
  else (contentParts, hasError).

(** [extractCleanJSONContentWithErrorCheck] (lines 152-316):
    [(speaker, content, hasError)]. *)
Definition extractCleanJSONContentWithErrorCheck (msg : Message.t V)
  : string * string * bool :=
  let items := Body.Content (Message.Message msg) in
  if Message.Type_ msg =? "system" then
    if Message.Subtype msg =? "init" then
      ("SYSTEM",
       "Session initialized (ID: " ++ Message.SessionID msg
         ++ ", Model: " ++ Message.Model msg ++ ")",
       false)
    else ("SYSTEM", "System message", false)
  else if Message.Type_ msg =? "assistant" then
    let content :=
      if (0 <? List.length items)%nat
      then Join (fold_left cleanAssistantItem items []) (nl ++ nl)
      else EmptyString in
    ("ASSISTANT", content, false)
  else if Message.Type_ msg =? "user" then
    let '(content, hasError) :=
      if (0 <? List.length items)%nat
      then let '(contentParts, hasError) :=
             fold_left cleanUserItem items ([], false) in
           (Join contentParts (nl ++ nl), hasError)
      else (EmptyString, false) in
    ("USER", content, hasError)
  else (ToUpper (Message.Type_ msg), "Unknown message type", false).

(** The body of the loop at lines 538-563. *)
Definition formatAssistantItem (contentParts : list string)
  (content : ContentItem.t V) : list string :=
  if ContentItem.Type_ content =? "text" then
    if nonEmpty (ContentItem.Text content)
    then append contentParts (ContentItem.Text content)
    else contentParts
  else if ContentItem.Type_ content =? "tool_use" then
    let toolInput := serializeInput Marshal content in
    append contentParts
      (ColorGreen ++ "🔧 Using tool: " ++ ContentItem.Name content
         ++ (if nonEmpty toolInput && negb (toolInput =? "{}")
             then " with " ++ toolInput else EmptyString)
         ++ ColorReset)
  else contentParts.

(** The body of the loop at lines 577-613. *)
Definition formatUserItem (contentParts : list string)
  (contentItem : ContentItem.t V) : list string :=
  if ContentItem.Type_ contentItem =? "tool_result" then
    let resultContent := resultContentOf contentItem in
    if nonEmpty resultContent then
      let errorIndicator :=
        if ContentItem.IsError contentItem
        then ColorRed ++ "❌ Tool error:" ++ ColorReset
        else ColorMagenta ++ "✅ Tool result:" ++ ColorReset in
      append contentParts (errorIndicator ++ nl ++ resultContent)
    else
      append contentParts
        (ColorMagenta ++ "✅ Tool result received" ++ ColorReset)
  else if nonEmpty (ContentItem.Text contentItem) then
    append contentParts (ContentItem.Text contentItem)
  else contentParts.

(** [formatJSONMessage] (lines 525-623): [(speaker, content)]. *)
Definition formatJSONMessage (msg : Message.t V) : string * string :=
  let items := Body.Content (Message.Message msg) in
  if Message.Type_ msg =? "system" then
    if Message.Subtype msg =? "init" then
      ("SYSTEM",
       "Session initialized (ID: " ++ Message.SessionID msg
         ++ ", Model: " ++ Message.Model msg ++ ")")
    else ("SYSTEM", "System message")
  else if Message.Type_ msg =? "assistant" then
    ("ASSISTANT",
     if (0 <? List.length items)%nat
     then Join (fold_left formatAssistantItem items []) nl
     else EmptyString)
  else if Message.Type_ msg =? "user" then
    ("USER",
     if (0 <? List.length items)%nat
     then Join (fold_left formatUserItem items []) nl
     else EmptyString)
  else (ToUpper (Message.Type_ msg), "Unknown message type").

(** [parseLine] (lines 488-523).  [staticLineNum] is the package-level
    counter, returned updated; [now] is the reading
    [int(time.Since(startTime).Seconds())] taken at line 500. *)
Definition parseLine (staticLineNum : Z) (line : string) (now : Z)
  : option ChatEntry.t * Z :=
  let line := TrimSpace line in
  if line =? "" then (None, staticLineNum)
  else
    let staticLineNum := wrap_int (staticLineNum + 1) in
    let content := line in
    let '(IsJSON, (Speaker, Content)) :=
      if HasPrefix_brace content then
        match Unmarshal_Message content with
        | Some msg => (true, formatJSONMessage msg)
        | None => (false, ("SYSTEM", content))
        end
      else (false, ("SYSTEM", content)) in
    (Some {| ChatEntry.LineNumber := staticLineNum;
             ChatEntry.Speaker := Speaker;
             ChatEntry.Content := Content;
             ChatEntry.Timestamp := formatRelativeTime now;
             ChatEntry.IsJSON := IsJSON;
             ChatEntry.RawLine := line |},
     staticLineNum).

(** The verb [%-45s]: blanks on the right up to 45 runes. *)
Definition fmt_left45 (s : string) : string :=
  s ++ repeat_char " " (45 - RuneCountInString s).

(** The loop at lines 653-660, from index [i]: one chunk per [Printf]. *)
Fixpoint printLines (prefix contentColor : string) (i : nat)
  (lines : list string) : list string :=
  match lines with
  | [] => []
  | line :: rest =>
      (if Nat.eqb i 0
       then fmt_left45 prefix ++ " " ++ contentColor ++ line
              ++ ColorReset ++ nl
       else contentColor ++ line ++ ColorReset ++ nl)
      :: printLines prefix contentColor (S i) rest
  end.

(** [printSingleEntry] (lines 626-666): the chunks it writes to standard
    output, in order. *)
Definition printSingleEntry (entry : ChatEntry.t) : list string :=
  if ChatEntry.Content entry =? "" then []
  else
    let '(speakerColor, contentColor) :=
      if ChatEntry.Speaker entry =? "ASSISTANT"
      then (ColorGreen ++ ColorBold, ColorGreen)
      else if ChatEntry.Speaker entry =? "USER"
      then (ColorBlue ++ ColorBold, ColorBlue)
      else if ChatEntry.Speaker entry =? "SYSTEM"
      then (ColorYellow ++ ColorBold, ColorGray)
      else (ColorWhite, ColorWhite) in
    let prefix :=
      ColorGray ++ "[" ++ fmt_0d 3 (ChatEntry.LineNumber entry) ++ "] "
        ++ ColorDim ++ "[" ++ ChatEntry.Timestamp entry ++ "]" ++ ColorReset
        ++ " " ++ (speakerColor ++ ChatEntry.Speaker entry) ++ ":"
        ++ ColorReset in
    let lines := Split (ChatEntry.Content entry) LF in
    (printLines prefix contentColor 0 lines
       ++ (if ChatEntry.IsJSON entry then [nl] else []))%list.

End Classifier.

(** ** Effects *)

(** An [exec.Cmd] with its standard input. *)
Module Cmd.
Record t : Type := mk { Path : string; Args : list string; Stdin : string }.
End Cmd.

(** What the process does to the outside, in the order it does it.
    [Parsed] is a ghost event: the entry [parseLine] handed to the loop. *)
Inductive event : Type :=
| Parsed (entry : ChatEntry.t)
| Stdout (chunk : string)
| Exec (cmd : Cmd.t) (err : option string)
| Log (message : string)
| FileWrite (chunk : string)
| Fatal (message : string).

(** The mutable state: the package-level [staticLineNum] (line 29) and
    everything done so far. *)
Record World : Type := mkWorld { staticLineNum : Z; trace : list event }.

(** The operating system: [os.Create] on the capture file ([Some] is its
    error) and [cmd.Run] of the [n]-th command the process starts ([Some]
    is its error). *)
Class OS : Type := {
  Create : string -> option string;
  Run : nat -> Cmd.t -> option string
}.

(** A [bufio.Scanner]: the lines it yields, each with the clock reading
    taken if [parseLine] reaches line 500 for it, and [scanner.Err()] once
    [Scan] has returned false. *)
Module Scanner.
Record t : Type := mk { lines : list (string * Z); Err : option string }.
End Scanner.

(** [var staticLineNum int]: zero when [main] starts. *)
Definition initial : World := {| staticLineNum := 0; trace := [] |}.

Definition emit (w : World) (e : event) : World :=
  {| staticLineNum := staticLineNum w; trace := (trace w ++ [e])%list |}.

Definition emitAll (w : World) (es : list event) : World :=
  {| staticLineNum := staticLineNum w; trace := (trace w ++ es)%list |}.

(** Projections of a trace. *)
Definition entries (t : list event) : list ChatEntry.t :=
  flat_map (fun e => match e with Parsed x => [x] | _ => [] end) t.

Definition printed (t : list event) : list string :=
  flat_map (fun e => match e with Stdout x => [x] | _ => [] end) t.

Definition commands (t : list event) : list Cmd.t :=
  flat_map (fun e => match e with Exec c _ => [c] | _ => [] end) t.

Definition warnings (t : list event) : list string :=
  flat_map (fun e => match e with Log x => [x] | _ => [] end) t.

Definition captured (t : list event) : list string :=
  flat_map (fun e => match e with FileWrite x => [x] | _ => [] end) t.

Definition fatals (t : list event) : list string :=
  flat_map (fun e => match e with Fatal x => [x] | _ => [] end) t.

Definition isFileWrite (e : event) : bool :=
  match e with FileWrite _ => true | _ => false end.

Section Pipeline.

Context {Str : Strings} {V : Type} {J : JSON V} {O : OS}.

(** Lines 86-103: the header written for [speaker] and the style chosen. *)
Definition speakerHeader (speaker : string) (hasError : bool)
  : string * string :=
  if speaker =? "ASSISTANT" then (lit "🤖 **ASSISTANT**:\n\n", "info")
  else if speaker =? "USER" then
    (lit "👤 **USER**:\n\n", if hasError then "error" else "success")
  else if speaker =? "SYSTEM" then (lit "⚙️ **SYSTEM**:\n\n", "warning")
  else ("**" ++ speaker ++ lit "**:\n\n", "info").

(** Lines 113-130: the text shown inside the "Show JSON" block. *)
Definition prettyRaw (rawJSONLine : string) : string :=
  if HasPrefix_brace rawJSONLine then
    match Unmarshal_any rawJSONLine with
    | Some jsonObj =>
        match MarshalIndent jsonObj with
        | Some prettyJSON => prettyJSON
        | None => rawJSONLine
        end
    | None => rawJSONLine
    end
  else rawJSONLine.

(** Lines 63-83: [Some (speaker, content, hasError)], or [None] where the
    function returns at line 72. *)
Definition annotationContent (rawJSONLine : string)
  : option (string * string * bool) :=
  if HasPrefix_brace rawJSONLine then
    match Unmarshal_Message rawJSONLine with
    | Some msg =>
        let '(speaker, content, hasError) :=
          extractCleanJSONContentWithErrorCheck msg in
        if content =? "Unknown message type" then None
        else Some (speaker, content, hasError)
    | None => Some ("SYSTEM", rawJSONLine, false)
    end
  else Some ("SYSTEM", rawJSONLine, false).

(** Lines 46-143 of [createBuildkiteAnnotation]: the command it is about to
    run, or [None] where it returns early (lines 50 and 72). *)
Definition annotationCommand (rawJSONLine : string) (lineNumber : Z)
  (timestamp : string) : option Cmd.t :=
  let rawJSONLine := TrimSpace rawJSONLine in
  if rawJSONLine =? "" then None
  else
    match annotationContent rawJSONLine with
    | None => None
    | Some (speaker, content, hasError) =>
        let '(header, style) := speakerHeader speaker hasError in
        let markdownContent :=
          "**Message " ++ fmt_d lineNumber ++ "** - `" ++ timestamp
            ++ lit "`\n\n"
            ++ header
            ++ (if nonEmpty content then content else EmptyString)
            ++ lit "\n\n<details>\n<summary>Show JSON</summary>\n\n```json\n"
            ++ prettyRaw rawJSONLine
            ++ lit "\n```\n\n</details>" in
        let context := "chat-message-" ++ fmt_d lineNumber in
        Some {| Cmd.Path := "buildkite-agent";
                Cmd.Args := ["annotate"; "--style"; style;
                             "--context"; context; "--priority"; "5"];
                Cmd.Stdin := markdownContent |}
    end.

(** [createBuildkiteAnnotation] (lines 46-149).  [log.Printf] is recorded
    by its message. *)
Definition createBuildkiteAnnotation (w : World) (rawJSONLine : string)
  (lineNumber : Z) (timestamp : string) : World :=
  match annotationCommand rawJSONLine lineNumber timestamp with
  | None => w
  | Some cmd =>
      let err := Run (List.length (commands (trace w))) cmd in
      let w := emit w (Exec cmd err) in
      match err with
      | Some e =>
          emit w (Log ("Warning: Failed to create Buildkite annotation: "
                         ++ e))
      | None => w
      end
  end.

(** Lines 446-450 and 474-480: one turn of either loop after the line has
    been read. *)
Definition handleLine (w : World) (line : string) (now : Z) : World :=
  let '(entry, n) := parseLine (staticLineNum w) line now in
  let w := {| staticLineNum := n; trace := trace w |} in
  match entry with
  | Some entry =>
      let w := emit w (Parsed entry) in
      let w := emitAll w (map Stdout (printSingleEntry entry)) in
      createBuildkiteAnnotation w line (ChatEntry.LineNumber entry)
        (ChatEntry.Timestamp entry)
  | None => w
  end.

(** The loop at lines 444-451. *)
Fixpoint streamLines (w : World) (lines : list (string * Z)) : World :=
  match lines with
  | [] => w
  | (line, now) :: rest => streamLines (handleLine w line now) rest
  end.

(** The loop at lines 467-481. *)
Fixpoint streamLinesWithFile (w : World) (lines : list (string * Z))
  : World :=
  match lines with
  | [] => w
  | (line, now) :: rest =>
      let w := emit w (FileWrite (line ++ nl)) in
      streamLinesWithFile (handleLine w line now) rest
  end.

(** Lines 453-455 and 483-485. *)
Definition checkScannerErr (w : World) (scanner : Scanner.t) : World :=
  match Scanner.Err scanner with
  | Some err => emit w (Fatal ("Error reading input: " ++ err))
  | None => w
  end.

(** [parseAndStreamOutput] (lines 443-456). *)
Definition parseAndStreamOutput (w : World) (scanner : Scanner.t) : World :=
  checkScannerErr (streamLines w (Scanner.lines scanner)) scanner.

(** [parseAndStreamOutputWithFile] (lines 459-486). *)
Definition parseAndStreamOutputWithFile (w : World) (scanner : Scanner.t)
  (outputFilename : string) : World :=
  match Create outputFilename with
  | Some err =>
      emit w (Fatal ("Error creating output file '" ++ outputFilename
                       ++ "': " ++ err))
  | None =>
      checkScannerErr (streamLinesWithFile w (Scanner.lines scanner)) scanner
  end.

End Pipeline.

(** ** [main] (lines 357-440) *)

(** What [main] reads from: [bufio.NewScanner(os.Stdin)], and [os.Open]
    followed by [bufio.NewScanner] ([inr] is the error of [os.Open]). *)
Class Files : Type := {
  Stdin : Scanner.t;
  Open : string -> Scanner.t + string
}.

(** [printUsage] (lines 433-440): one chunk per [Println]. *)
Definition printUsage : list string :=
  [ lit "Usage: chat-parser <input-file>\n";
    lit "       cat <input-file> | chat-parser -\n";
    lit "       cat <input-file> | chat-parser - -o <output-file>\n";
    nl;
    lit "Options:\n";
    lit "  -o <file>    Save output to file (only when streaming from stdin)\n"
  ].

(** How the loop over the arguments ends: with [outputFile] and
    [inputSource] set, or in [os.Exit(1)] after printing. *)
Inductive ArgsResult : Type :=
| ArgsOk (outputFile inputSource : string)
| ArgsExit (printed : list string).

(** The loop at lines 371-392, from the current values of [outputFile] and
    [inputSource]. *)
Fixpoint parseArgs (args : list string) (outputFile inputSource : string)
  : ArgsResult :=
  match args with
  | [] => ArgsOk outputFile inputSource
  | arg :: rest =>
      if arg =? "-o" then
        match rest with
        | [] => ArgsExit (lit "Error: -o requires a filename\n" :: printUsage)
        | filename :: rest' => parseArgs rest' filename inputSource
        end
      else if arg =? "-" then parseArgs rest outputFile "-"
      else if inputSource =? "" then parseArgs rest outputFile arg
      else ArgsExit (("Error: unexpected argument '" ++ arg ++ lit "'\n")
                       :: printUsage)
  end.

Section Main.

Context {Str : Strings} {V : Type} {J : JSON V} {O : OS} {F : Files}.

(** [main] (lines 357-431) on [os.Args[1:]]: the final world and the exit
    status of the process (1 after [os.Exit(1)] or [log.Fatalf], 0 when
    [main] returns). *)
Definition main (args : list string) : World * Z :=
  match args with
  | [] => (emitAll initial (map Stdout printUsage), 1%Z)
  | _ :: _ =>
      match parseArgs args EmptyString EmptyString with
      | ArgsExit printed => (emitAll initial (map Stdout printed), 1%Z)
      | ArgsOk outputFile inputSource =>
          if inputSource =? "" then
            (emitAll initial (map Stdout printUsage), 1%Z)
          else
            let isStreaming := inputSource =? "-" in
            match (if isStreaming then inl Stdin else Open inputSource) with
            | inr err =>
                (emit initial (Fatal ("Error opening file: " ++ err)), 1%Z)
            | inl scanner =>
                if nonEmpty outputFile && negb isStreaming then
                  (emit initial
                     (Stdout (lit
                        "Error: -o option can only be used when streaming from stdin\n")),
                   1%Z)
                else
                  let w :=
                    emitAll initial
                      [Stdout (ColorCyan ++ ColorBold
                                 ++ "=== Claude Code Chat Transcript ==="
                                 ++ ColorReset ++ nl);
                       Stdout nl] in
                  let w :=
                    if nonEmpty outputFile
                    then parseAndStreamOutputWithFile w scanner outputFile
                    else parseAndStreamOutput w scanner in
                  (w, match fatals (trace w) with
                      | [] => 0%Z
                      | _ :: _ => 1%Z
                      end)
            end
      end
  end.

End Main.

(** ** Concrete inputs

    Zero values of the structs, a byte-level instance of package [strings]
    that agrees with Go on ASCII text, and a decoder that knows a handful of
    sample lines and answers for them what [encoding/json] answers. *)

Definition zeroItem (V : Type) : ContentItem.t V :=
  {| ContentItem.Type_ := EmptyString; ContentItem.Text := EmptyString;
     ContentItem.ID := EmptyString; ContentItem.Name := EmptyString;
     ContentItem.Input := None; ContentItem.ToolUseID := EmptyString;
     ContentItem.Content := None; ContentItem.IsError := false |}.

Definition zeroBody (V : Type) : Body.t V :=
  {| Body.ID := EmptyString; Body.Type_ := EmptyString;
     Body.Role := EmptyString; Body.Model := EmptyString;
     Body.Content := [];
     Body.Usage := {| Usage.InputTokens := 0; Usage.OutputTokens := 0 |} |}.

(** A message of kind [type] with content items [items], every other field
    zero. *)
Definition messageOf (V : Type) (type : string)
  (items : list (ContentItem.t V)) : Message.t V :=
  {| Message.Type_ := type; Message.Subtype := EmptyString;
     Message.Message :=
       {| Body.ID := EmptyString; Body.Type_ := EmptyString;
          Body.Role := EmptyString; Body.Model := EmptyString;
          Body.Content := items;
          Body.Usage := {| Usage.InputTokens := 0;
                           Usage.OutputTokens := 0 |} |};
     Message.SessionID := EmptyString; Message.Tools := [];
     Message.Model := EmptyString |}.

(** A [tool_result] item carrying [text]. *)
Definition toolResult (V : Type) (isError : bool) (text : string)
  : ContentItem.t V :=
  {| ContentItem.Type_ := "tool_result"; ContentItem.Text := text;
     ContentItem.ID := EmptyString; ContentItem.Name := EmptyString;
     ContentItem.Input := None; ContentItem.ToolUseID := EmptyString;
     ContentItem.Content := None; ContentItem.IsError := isError |}.

Definition asciiSpace (c : ascii) : bool :=
  match nat_of_ascii c with
  | 9 | 10 | 11 | 12 | 13 | 32 => true
  | _ => false
  end.

Fixpoint trimLeft (s : string) : string :=
  match s with
  | String c r => if asciiSpace c then trimLeft r else s
  | EmptyString => EmptyString
  end.

Fixpoint trimRight (s : string) : string :=
  match s with
  | String c r =>
      match trimRight r with
      | EmptyString => if asciiSpace c then EmptyString
                       else String c EmptyString
      | r' => String c r'
      end
  | EmptyString => EmptyString
  end.

Definition upperByte (c : ascii) : ascii :=
  let n := nat_of_ascii c in
  if (97 <=? n)%nat && (n <=? 122)%nat then ascii_of_nat (n - 32) else c.

Fixpoint mapBytes (f : ascii -> ascii) (s : string) : string :=
  match s with
  | String c r => String (f c) (mapBytes f r)
  | EmptyString => EmptyString
  end.

Definition asciiStrings : Strings :=
  {| TrimSpace := fun s => trimRight (trimLeft s);
     ToUpper := mapBytes upperByte;
     RuneCountInString := String.length |}.

(** One sample line: the text, what it decodes to as a [Message], and the
    value it decodes to as an [interface{}], given by its two
    serializations (keys sorted; [pretty] with two-space indent). *)
Module Sample.
Record t : Type := mk {
  line : string;
  message : Message.t nat;
  compact : string;
  pretty : string
}.
End Sample.

Definition samples : list Sample.t :=
  [ {| Sample.line := json_lit
         "{'type':'system','subtype':'init','session_id':'abc123','model':'m1'}";
       Sample.message :=
         {| Message.Type_ := "system"; Message.Subtype := "init";
            Message.Message := zeroBody nat;
            Message.SessionID := "abc123"; Message.Tools := [];
            Message.Model := "m1" |};
       Sample.compact := json_lit
         "{'model':'m1','session_id':'abc123','subtype':'init','type':'system'}";
       Sample.pretty := json_lit (lit
         "{\n  'model': 'm1',\n  'session_id': 'abc123',\n  'subtype': 'init',\n  'type': 'system'\n}") |};
    {| Sample.line := json_lit "{'type':'assistant'}";
       Sample.message := messageOf "assistant" [];
       Sample.compact := json_lit "{'type':'assistant'}";
       Sample.pretty := json_lit (lit "{\n  'type': 'assistant'\n}") |};
    {| Sample.line := json_lit
         "{'type':'user','message':{'content':[{'type':'tool_result','is_error':true,'text':'boom'}]}}";
       Sample.message := messageOf "user" [toolResult nat true "boom"];
       Sample.compact := json_lit
         "{'message':{'content':[{'is_error':true,'text':'boom','type':'tool_result'}]},'type':'user'}";
       Sample.pretty := json_lit (lit
         "{\n  'message': {\n    'content': [\n      {\n        'is_error': true,\n        'text': 'boom',\n        'type': 'tool_result'\n      }\n    ]\n  },\n  'type': 'user'\n}") |};
    {| Sample.line := json_lit "{'type':'result'}";
       Sample.message := messageOf "result" [];
       Sample.compact := json_lit "{'type':'result'}";
       Sample.pretty := json_lit (lit "{\n  'type': 'result'\n}") |} ].

Fixpoint sampleIndex (s : string) (table : list Sample.t) (i : nat)
  : option (nat * Sample.t) :=
  match table with
  | [] => None
  | x :: rest =>
      if Sample.line x =? s then Some (i, x) else sampleIndex s rest (S i)
  end.

(** The decoder of the samples: every other text is a syntax error to it.
    A decoded value is named by its index in [samples]. *)
Definition sampleJSON : JSON nat :=
  {| Unmarshal_Message := fun s =>
       match sampleIndex s samples 0 with
       | Some (_, x) => Some (Sample.message x)
       | None => None
       end;
     Unmarshal_any := fun s =>
       match sampleIndex s samples 0 with
       | Some (i, _) => Some (Some i)
       | None => None
       end;
     Marshal := fun v =>
       match v with
       | Some i => option_map Sample.compact (nth_error samples i)
       | None => Some "null"
       end;
     MarshalIndent := fun v =>
       match v with
       | Some i => option_map Sample.pretty (nth_error samples i)
       | None => Some "null"
       end;
     Valid := fun s =>
       match sampleIndex s samples 0 with
       | Some _ => true
       | None => false
       end;
     Unmarshal_Message_Valid :=
       ltac:(intros s msg; cbv beta;
             destruct (sampleIndex s samples 0) as [[? ?]|];
             [reflexivity | discriminate]) |}.

(** [buildkite-agent] always succeeds, or always fails. *)
Definition agentUp : OS :=
  {| Create := fun _ => None; Run := fun _ _ => None |}.

Definition agentDown : OS :=
  {| Create := fun _ => None;
     Run := fun _ _ => Some "exit status 1" |}.

(** A stream of three lines, the second blank, read without error. *)
Definition sampleScanner : Scanner.t :=
  {| Scanner.lines := [("hello", 0%Z); ("   ", 1%Z);
                       (json_lit "{'type':'result'}", 2%Z)];
     Scanner.Err := None |}.

(** Standard input is [sampleScanner]; no file can be opened. *)
Definition sampleFiles : Files :=
  {| Stdin := sampleScanner;
     Open := fun name => inr ("open " ++ name ++ ": no such file or directory")
  |}.

(** The value of [--context] and of [--style] in an annotation command. *)
Definition contextOf (cmd : Cmd.t) : string :=
  nth 4 (Cmd.Args cmd) EmptyString.

Definition styleOf (cmd : Cmd.t) : string :=
  nth 2 (Cmd.Args cmd) EmptyString.

(** The number of line feeds in a string. *)
Fixpoint countLF (s : string) : nat :=
  match s with
  | EmptyString => 0
  | String c r => (if Ascii.eqb c LF then 1 else 0) + countLF r
  end.

(** ** The properties, in the words of the specification *)

Unset Implicit Arguments.

(** The progressive-disclosure rule for character threshold [T] (the line
    threshold is 2): [out] is what the formatter writes for the candidate
    [s], and [block remaining] is what follows the preview. *)
Definition disclosed (T : nat) (block : string -> string) (s out : string)
  : Prop :=
  let lines := Split s LF in
  if (List.length lines <=? 2)%nat && (String.length s <=? T)%nat then
    out = s
  else
    exists preview remaining,
      out = preview ++ block remaining /\
      if (2 <? List.length lines)%nat then
        preview = Join (firstn 2 lines) nl /\
        remaining = Join (skipn 2 lines) nl /\
        s = preview ++ nl ++ remaining
      else
        exists head,
          preview = head ++ "..." /\ String.length head = T /\
          remaining <> EmptyString /\ s = head ++ remaining.

(** The collapsible block is written only for a non-empty remainder. *)
Definition blockIfAny (more : string -> string) (remaining : string)
  : string :=
  if nonEmpty remaining then more remaining else EmptyString.

(** What either formatter writes after its heading. *)
Definition disclosure (T : nat) (more : string -> string) (s : string)
  : string :=
  if needsDisclosure T s
  then fst (previewRemaining T s)
         ++ blockIfAny more (snd (previewRemaining T s))
  else s.

(** The renderer's part [shown] and the annotation's part [reported] for
    one content item carry the same content: the same text; the same tool
    with its input written compactly and whole by the renderer, indented and
    under the disclosure rule by the annotation; the same result content
    under the same indicator, whole and coloured for the renderer, plain
    and under the disclosure rule for the annotation; or the same notice. *)
Section Correspondence.

Context {V : Type} {J : JSON V}.

Inductive samePart : string -> string -> Prop :=
| same_text (text : string) :
    nonEmpty text = true -> samePart text text
| same_tool_use (item : ContentItem.t V) (compact : string) :
    compact = serializeInput Marshal item ->
    samePart
      (ColorGreen ++ "🔧 Using tool: " ++ ContentItem.Name item
         ++ (if nonEmpty compact && negb (compact =? "{}")
             then " with " ++ compact else EmptyString)
         ++ ColorReset)
      (describeToolInput ("🔧 Using tool: " ++ ContentItem.Name item)
         (serializeInput MarshalIndent item))
| same_result (isError : bool) (resultContent : string) :
    samePart
      ((if isError then ColorRed ++ "❌ Tool error:" ++ ColorReset
        else ColorMagenta ++ "✅ Tool result:" ++ ColorReset)
         ++ nl ++ resultContent)
      (describeToolResult
         (if isError then "❌ Tool error:" else "✅ Tool result:")
         resultContent)
| same_received :
    samePart (ColorMagenta ++ "✅ Tool result received" ++ ColorReset)
      "✅ Tool result received".

End Correspondence.

(** A user event whose one tool result has three lines. *)
Definition threeLineResult : Message.t nat :=
  messageOf "user" [toolResult nat false (lit "a\nb\nc")].

(** The errors of the commands that failed, and everything but the
    capture-file writes. *)
Definition failed (t : list event) : list string :=
  flat_map (fun e => match e with Exec _ (Some x) => [x] | _ => [] end) t.

Definition others (t : list event) : list event :=
  filter (fun e => negb (isFileWrite e)) t.

(** What one turn of the loop adds to the trace when the counter is [n]
    and [k] commands have been run. *)
Section Turn.

Context {Str : Strings} {V : Type} {J : JSON V} {O : OS}.

Definition annotationEvents (k : nat) (line : string) (lineNumber : Z)
  (timestamp : string) : list event :=
  match annotationCommand line lineNumber timestamp with
  | None => []
  | Some cmd =>
      Exec cmd (Run k cmd)
      :: match Run k cmd with
         | Some e =>
             [Log ("Warning: Failed to create Buildkite annotation: " ++ e)]
         | None => []
         end
  end.

Definition turnEvents (n : Z) (k : nat) (line : string) (now : Z)
  : list event :=
  match fst (parseLine n line now) with
  | None => []
  | Some entry =>
      (Parsed entry :: map Stdout (printSingleEntry entry))
        ++ annotationEvents k line (ChatEntry.LineNumber entry)
             (ChatEntry.Timestamp entry)
  end%list.

End Turn.

(** The lines that reach the classifier. *)
Definition nonblank {Str : Strings} (lines : list (string * Z))
  : list (string * Z) :=
  filter (fun l => nonEmpty (TrimSpace (fst l))) lines.

(** * Proofs *)

(** ** Byte strings *)

Lemma length_append (a b : string) :
  String.length (a ++ b) = (String.length a + String.length b)%nat.
Proof. induction a as [|c a IH]; simpl; [reflexivity | now rewrite IH]. Qed.

Lemma append_assoc (a b c : string) : (a ++ b) ++ c = a ++ (b ++ c).
Proof. induction a as [|x a IH]; simpl; [reflexivity | now rewrite IH]. Qed.

Lemma append_empty_r (a : string) : a ++ EmptyString = a.
Proof. induction a as [|x a IH]; simpl; [reflexivity | now rewrite IH]. Qed.

Lemma append_inv_head (a b c : string) : a ++ b = a ++ c -> b = c.
Proof.
  induction a as [|x a IH]; simpl; intros H; [exact H|].
  injection H as H. now apply IH.
Qed.

Lemma length_zero_empty (s : string) : String.length s = 0%nat -> s = EmptyString.
Proof. destruct s; simpl; [reflexivity | discriminate]. Qed.

Lemma nonEmpty_true (s : string) : nonEmpty s = true <-> s <> EmptyString.
Proof.
  unfold nonEmpty. destruct (String.eqb_spec s EmptyString); simpl; split;
    congruence.
Qed.

Lemma nonEmpty_false (s : string) : nonEmpty s = false <-> s = EmptyString.
Proof.
  unfold nonEmpty. destruct (String.eqb_spec s EmptyString); simpl; split;
    congruence.
Qed.

Lemma substring_zero_length (n : nat) (s : string) :
  (n <= String.length s)%nat -> String.length (substring 0 n s) = n.
Proof.
  revert s. induction n as [|n IH]; intros s H.
  - destruct s; reflexivity.
  - destruct s as [|c s]; simpl in *; [lia|]. rewrite IH; lia.
Qed.

Lemma substring_all (s : string) : substring 0 (String.length s) s = s.
Proof. induction s as [|c s IH]; simpl; [reflexivity | now rewrite IH]. Qed.

(** [s[:n] + s[n:] == s]. *)
Lemma substring_split (n : nat) (s : string) :
  (n <= String.length s)%nat ->
  substring 0 n s ++ substring n (String.length s - n) s = s.
Proof.
  revert s. induction n as [|n IH]; intros s H.
  - rewrite Nat.sub_0_r, substring_all. destruct s; reflexivity.
  - destruct s as [|c s]; simpl in *; [lia|].
    rewrite IH by lia. reflexivity.
Qed.

Lemma substring_tail_length (n : nat) (s : string) :
  (n <= String.length s)%nat ->
  String.length (substring n (String.length s - n) s)
  = (String.length s - n)%nat.
Proof.
  intros H. pose proof (substring_split n s H) as E.
  apply (f_equal String.length) in E.
  rewrite length_append, substring_zero_length in E by exact H. lia.
Qed.

(** ** [Split] and [Join] *)

Lemma Split_not_nil (s : string) (sep : ascii) : Split s sep <> [].
Proof.
  destruct s as [|c s]; simpl; [discriminate|].
  destruct (Ascii.eqb c sep); [discriminate|].
  destruct (Split s sep); discriminate.
Qed.

Lemma Join_cons (x : string) (l : list string) (sep : string) :
  l <> [] -> Join (x :: l) sep = x ++ sep ++ Join l sep.
Proof. destruct l; [congruence | reflexivity]. Qed.

(** [strings.Join(strings.Split(s, "\n"), "\n") == s]. *)
Lemma Join_Split (s : string) : Join (Split s LF) nl = s.
Proof.
  induction s as [|c s IH]; [reflexivity|].
  simpl Split. destruct (Ascii.eqb_spec c LF) as [->|Hc].
  - rewrite Join_cons by apply Split_not_nil. rewrite IH. reflexivity.
  - pose proof (Split_not_nil s LF) as Hn.
    destruct (Split s LF) as [|p ps]; [congruence|].
    rewrite <- IH. destruct ps as [|q ps]; reflexivity.
Qed.

(** Cutting a slice of more than two lines after the second. *)
Lemma Join_cut2 (l : list string) (sep : string) :
  (2 < List.length l)%nat ->
  Join l sep = Join (firstn 2 l) sep ++ sep ++ Join (skipn 2 l) sep.
Proof.
  destruct l as [|a [|b [|c l]]]; simpl List.length; try lia. intros _.
  change (firstn 2 (a :: b :: c :: l)) with [a; b].
  change (skipn 2 (a :: b :: c :: l)) with (c :: l).
  rewrite (Join_cons a) by discriminate.
  rewrite (Join_cons b) by discriminate.
  change (Join [a; b] sep) with (a ++ sep ++ b).
  now rewrite !append_assoc.
Qed.

Lemma Join_nl_empty (l : list string) :
  l <> [] -> (Join l nl = EmptyString <-> l = [EmptyString]).
Proof.
  intros Hl. split.
  - destruct l as [|a [|b l]]; [congruence| |].
    + simpl. now intros ->.
    + rewrite Join_cons by discriminate. intros H.
      apply (f_equal String.length) in H.
      rewrite !length_append in H. simpl in H. lia.
  - now intros ->.
Qed.

Lemma skipn2_not_nil (A : Type) (l : list A) :
  (2 < List.length l)%nat -> skipn 2 l <> [].
Proof.
  destruct l as [|a [|b [|c l]]]; simpl; try lia. discriminate.
Qed.

(** ** Progressive disclosure *)

Lemma describeToolResult_disclosure (errorIndicator s : string) :
  describeToolResult errorIndicator s
  = errorIndicator ++ nl ++ disclosure 400 moreResult s.
Proof.
  unfold describeToolResult, disclosure, blockIfAny.
  destruct (needsDisclosure 400 s); simpl negb; cbv iota; [|reflexivity].
  destruct (previewRemaining 400 s) as [preview remaining]; simpl fst;
    simpl snd.
  destruct (nonEmpty remaining); [reflexivity|].
  now rewrite append_empty_r.
Qed.

Lemma describeToolInput_disclosure (toolDesc s : string) :
  nonEmpty s && negb (s =? "{}") = true ->
  describeToolInput toolDesc s
  = toolDesc ++ " with " ++ disclosure 300 moreInput s.
Proof.
  intros H. unfold describeToolInput, disclosure, blockIfAny. rewrite H.
  destruct (needsDisclosure 300 s); simpl negb; cbv iota; [|reflexivity].
  destruct (previewRemaining 300 s) as [preview remaining]; simpl fst;
    simpl snd.
  destruct (nonEmpty remaining); [reflexivity|].
  now rewrite append_empty_r.
Qed.

Lemma needsDisclosure_false (T : nat) (s : string) :
  needsDisclosure T s = false <->
  (List.length (Split s LF) <= 2 /\ String.length s <= T)%nat.
Proof.
  unfold needsDisclosure. rewrite orb_false_iff, !Nat.ltb_ge. reflexivity.
Qed.

Lemma disclosure_disclosed (T : nat) (more : string -> string) (s : string) :
  disclosed T (blockIfAny more) s (disclosure T more s).
Proof.
  unfold disclosed, disclosure, needsDisclosure, previewRemaining.
  destruct (Nat.ltb_spec 2 (List.length (Split s LF))) as [Hl|Hl].
  - replace (List.length (Split s LF) <=? 2)%nat with false
      by (symmetry; apply Nat.leb_gt; exact Hl).
    cbn [andb orb fst snd]. eexists _, _. split; [reflexivity|].
    split; [reflexivity|]. split; [reflexivity|].
    rewrite <- Join_cut2 by exact Hl. symmetry. apply Join_Split.
  - replace (List.length (Split s LF) <=? 2)%nat with true
      by (symmetry; apply Nat.leb_le; exact Hl).
    destruct (Nat.ltb_spec T (String.length s)) as [Hc|Hc].
    + replace (String.length s <=? T)%nat with false
        by (symmetry; apply Nat.leb_gt; exact Hc).
      cbn [andb orb fst snd]. eexists _, _. split; [reflexivity|].
      exists (substring 0 T s). split; [reflexivity|].
      split; [apply substring_zero_length; lia|].
      split.
      * intros E. apply (f_equal String.length) in E.
        rewrite substring_tail_length in E by lia. simpl in E. lia.
      * symmetry. apply substring_split. lia.
    + replace (String.length s <=? T)%nat with true
        by (symmetry; apply Nat.leb_le; exact Hc).
      reflexivity.
Qed.

(** A disclosed rendering is the candidate itself only when the candidate
    is small: every other rendering has a different length. *)
Lemma disclosed_inline (T : nat) (more : string -> string) (s out : string) :
  (forall r, String.length r + 2 <= String.length (more r))%nat ->
  disclosed T (blockIfAny more) s out ->
  (out = s <-> (List.length (Split s LF) <= 2 /\ String.length s <= T)%nat).
Proof.
  intros Hmore. unfold disclosed.
  destruct (Nat.leb_spec (List.length (Split s LF)) 2) as [Hl|Hl]; simpl.
  - destruct (Nat.leb_spec (String.length s) T) as [Hc|Hc].
    + intros ->. split; [intros _; split; assumption | reflexivity].
    + replace (2 <? List.length (Split s LF))%nat with false
        by (symmetry; apply Nat.ltb_ge; exact Hl).
      intros (preview & remaining & -> & head & -> & Hh & Hr & Hs).
      split; [|lia]. intros E. exfalso.
      rewrite Hs in E. apply (f_equal String.length) in E.
      unfold blockIfAny in E.
      replace (nonEmpty remaining) with true in E
        by (symmetry; apply nonEmpty_true; exact Hr).
      rewrite !length_append in E. simpl in E.
      specialize (Hmore remaining). lia.
  - replace (2 <? List.length (Split s LF))%nat with true
      by (symmetry; apply Nat.ltb_lt; exact Hl).
    intros (preview & remaining & -> & _ & _ & Hs).
    split; [|lia]. intros E. exfalso.
    rewrite Hs in E. apply (f_equal String.length) in E.
    unfold blockIfAny in E. rewrite !length_append in E. simpl in E.
    specialize (Hmore remaining).
    destruct (nonEmpty remaining); simpl in E; lia.
Qed.

Lemma moreResult_length (r : string) :
  (String.length r + 2 <= String.length (moreResult r))%nat.
Proof. unfold moreResult. rewrite !length_append. simpl. lia. Qed.

Lemma moreInput_length (r : string) :
  (String.length r + 2 <= String.length (moreInput r))%nat.
Proof. unfold moreInput. rewrite !length_append. simpl. lia. Qed.

(** C1 (amended).  For every candidate string [s], the tool-result
    formatter (threshold 400) and, for a serialized input other than [""]
    and ["{}"], the tool-input formatter (threshold 300) write [s] whole
    after the heading exactly when [s] has at most 2 lines and at most the
    threshold's bytes; otherwise they write a preview followed, when the
    remainder is not empty, by the remainder in a collapsible block, where
    preview and remainder rebuild [s]: the first two lines, a line feed and
    the other lines, or the first [T] bytes (shown with ["..."] appended)
    and the bytes after them.  With more than two lines the remainder is
    empty exactly when [s] is two lines and a final line feed. *)
Theorem progressive_disclosure_preserves_content
  (s errorIndicator toolDesc : string) :
  (exists out,
      describeToolResult errorIndicator s = errorIndicator ++ nl ++ out /\
      disclosed 400 (blockIfAny moreResult) s out /\
      (out = s <->
       (List.length (Split s LF) <= 2 /\ String.length s <= 400)%nat))
  /\ (nonEmpty s && negb (s =? "{}") = true ->
      exists out,
        describeToolInput toolDesc s = toolDesc ++ " with " ++ out /\
        disclosed 300 (blockIfAny moreInput) s out /\
        (out = s <->
         (List.length (Split s LF) <= 2 /\ String.length s <= 300)%nat))
  /\ (forall T : nat,
        (2 < List.length (Split s LF))%nat ->
        (snd (previewRemaining T s) = EmptyString <->
         skipn 2 (Split s LF) = [EmptyString])).
Proof.
  split; [|split].
  - exists (disclosure 400 moreResult s).
    split; [apply describeToolResult_disclosure|].
    split; [apply disclosure_disclosed|].
    apply (disclosed_inline 400 moreResult); [apply moreResult_length|].
    apply disclosure_disclosed.
  - intros H. exists (disclosure 300 moreInput s).
    split; [now apply describeToolInput_disclosure|].
    split; [apply disclosure_disclosed|].
    apply (disclosed_inline 300 moreInput); [apply moreInput_length|].
    apply disclosure_disclosed.
  - intros T Hl. unfold previewRemaining.
    replace (2 <? List.length (Split s LF))%nat with true
      by (symmetry; apply Nat.ltb_lt; exact Hl).
    simpl snd. apply Join_nl_empty. now apply skipn2_not_nil.
Qed.

(** C1 as stated fails.  A tool result of two lines closed by a line feed
    has three lines for [strings.Split], so it is not small; yet its
    remainder is empty and the formatter writes the preview alone, with no
    collapsible block. *)
Lemma disclosure_block_missing_after_final_newline :
  describeToolResult "✅ Tool result:" (lit "a\nb\n")
  = lit "✅ Tool result:\na\nb"
  /\ ~ (forall s errorIndicator : string,
          exists out,
            describeToolResult errorIndicator s
            = errorIndicator ++ nl ++ out /\
            disclosed 400 moreResult s out).
Proof.
  split; [reflexivity|].
  intros H.
  destruct (H (lit "a\nb\n") "✅ Tool result:") as (out & E & D).
  rewrite describeToolResult_disclosure in E.
  do 2 apply append_inv_head in E. subst out.
  unfold disclosed in D.
  assert (C : (List.length (Split (lit "a\nb\n") LF) <=? 2)%nat
              && (String.length (lit "a\nb\n") <=? 400)%nat = false)
    by reflexivity.
  rewrite C in D. destruct D as (preview & remaining & E & _).
  apply (f_equal String.length) in E. rewrite length_append in E.
  assert (L : (4 <= String.length (moreResult remaining))%nat)
    by (unfold moreResult; rewrite !length_append; simpl; lia).
  change (String.length (disclosure 400 moreResult (lit "a\nb\n")))
    with 3%nat in E.
  lia.
Qed.

(** ** The error flag *)

Section ErrorFlag.

Context {Str : Strings} {V : Type} {J : JSON V}.

Lemma cleanUserItem_flag (acc : list string * bool)
  (item : ContentItem.t V) :
  snd (cleanUserItem acc item)
  = snd acc
    || ((ContentItem.Type_ item =? "tool_result")
        && ContentItem.IsError item).
Proof.
  destruct acc as [parts e]. unfold cleanUserItem. simpl snd.
  destruct (ContentItem.Type_ item =? "tool_result").
  - destruct (nonEmpty (resultContentOf item)); simpl snd;
      destruct (ContentItem.IsError item); simpl;
      now rewrite ?orb_true_r, ?orb_false_r.
  - destruct (nonEmpty (ContentItem.Text item)); simpl;
      now rewrite orb_false_r.
Qed.

Lemma cleanUserItems_flag (items : list (ContentItem.t V))
  (acc : list string * bool) :
  snd (fold_left cleanUserItem items acc)
  = snd acc
    || existsb (fun item => (ContentItem.Type_ item =? "tool_result")
                            && ContentItem.IsError item) items.
Proof.
  revert acc. induction items as [|item items IH]; intros acc; simpl.
  - now rewrite orb_false_r.
  - rewrite IH, cleanUserItem_flag. now rewrite orb_assoc.
Qed.

(** C2 (amended).  [hasError] is true exactly for a [user] event with at
    least one [tool_result] item whose [IsError] is set; it is false for
    every other kind.  A [tool_result] item with [IsError] set and a
    non-empty result content contributes a part that begins with the error
    indicator, one with [IsError] clear begins with the normal indicator,
    and the two indicators differ. *)
Theorem hasError_iff_tool_error (msg : Message.t V) :
  (snd (extractCleanJSONContentWithErrorCheck msg) = true <->
   Message.Type_ msg = "user" /\
   exists item,
     In item (Body.Content (Message.Message msg)) /\
     ContentItem.Type_ item = "tool_result" /\
     ContentItem.IsError item = true)
  /\ (forall parts hasError item,
        ContentItem.Type_ item = "tool_result" ->
        nonEmpty (resultContentOf item) = true ->
        exists rest,
          cleanUserItem (parts, hasError) item
          = (append parts
               ((if ContentItem.IsError item
                 then "❌ Tool error:" else "✅ Tool result:")
                ++ nl ++ rest),
             hasError || ContentItem.IsError item))
  /\ "❌ Tool error:" <> "✅ Tool result:".
Proof.
  split; [|split].
  - unfold extractCleanJSONContentWithErrorCheck.
    destruct (String.eqb_spec (Message.Type_ msg) "system") as [Es|_].
    { destruct (Message.Subtype msg =? "init"); simpl;
        (split; [discriminate | intros [E _]; congruence]). }
    destruct (String.eqb_spec (Message.Type_ msg) "assistant") as [Ea|_].
    { simpl. split; [discriminate | intros [E _]; congruence]. }
    destruct (String.eqb_spec (Message.Type_ msg) "user") as [Eu|Nu].
    2:{ simpl. split; [discriminate | intros [E _]; congruence]. }
    set (items := Body.Content (Message.Message msg)).
    assert (F : snd (let '(content, hasError) :=
                       if (0 <? List.length items)%nat
                       then let '(contentParts, hasError) :=
                              fold_left cleanUserItem items ([], false) in
                            (Join contentParts (nl ++ nl), hasError)
                       else (EmptyString, false) in
                     ("USER", content, hasError))
                = existsb (fun item =>
                             (ContentItem.Type_ item =? "tool_result")
                             && ContentItem.IsError item) items).
    { destruct items as [|i items'] eqn:Ei; [reflexivity|].
      change (0 <? List.length (i :: items'))%nat with true. cbv iota.
      pose proof (cleanUserItems_flag (i :: items') ([], false)) as F.
      destruct (fold_left cleanUserItem (i :: items') ([], false))
        as [parts e].
      exact F. }
    rewrite F, existsb_exists. split.
    + intros (item & Hin & Hb). apply andb_true_iff in Hb.
      destruct Hb as [Ht He]. apply String.eqb_eq in Ht.
      split; [exact Eu|]. now exists item.
    + intros (_ & item & Hin & Ht & He). exists item. split; [exact Hin|].
      now rewrite Ht, He.
  - intros parts hasError item Ht Hr. unfold cleanUserItem.
    rewrite Ht, Hr. change ("tool_result" =? "tool_result") with true.
    cbv iota. rewrite describeToolResult_disclosure.
    exists (disclosure 400 moreResult (resultContentOf item)).
    destruct (ContentItem.IsError item);
      now rewrite ?orb_true_r, ?orb_false_r.
  - discriminate.
Qed.

End ErrorFlag.

(** C2 as stated fails.  A [tool_result] item flagged as an error with no
    text and no content sets [hasError] but contributes the plain
    "result received" notice, not the error indicator. *)
Lemma error_item_without_content_shows_no_error_indicator :
  @extractCleanJSONContentWithErrorCheck asciiStrings nat sampleJSON
    (messageOf "user" [toolResult nat true EmptyString])
  = ("USER", "✅ Tool result received", true)
  /\ ~ (forall (parts : list string) (hasError : bool)
               (item : ContentItem.t nat),
          ContentItem.Type_ item = "tool_result" ->
          ContentItem.IsError item = true ->
          exists rest,
            fst (@cleanUserItem nat sampleJSON (parts, hasError) item)
            = append parts ("❌ Tool error:" ++ rest)).
Proof.
  split; [reflexivity|].
  intros H.
  destruct (H [] false (toolResult nat true EmptyString)
              eq_refl eq_refl) as (rest & E).
  cbv in E. discriminate E.
Qed.

(** ** The renderer and the annotation, item by item *)

Section Parts.

Context {Str : Strings} {V : Type} {J : JSON V}.

Lemma samePart_nonempty (shown reported : string) :
  samePart shown reported ->
  shown <> EmptyString /\ reported <> EmptyString.
Proof.
  intros [text Ht|item compact _|isError resultContent|].
  - apply nonEmpty_true in Ht. now split.
  - split; [discriminate|].
    unfold describeToolInput.
    repeat match goal with
           | |- context [if ?c then _ else _] => destruct c
           | |- context [let '(_, _) := ?p in _] => destruct p
           end; discriminate.
  - split; [destruct isError; discriminate|].
    rewrite describeToolResult_disclosure. destruct isError; discriminate.
  - split; discriminate.
Qed.

Lemma Forall2_append (shown reported : list string) (a b : string) :
  Forall2 samePart shown reported -> samePart a b ->
  Forall2 samePart (append shown a) (append reported b).
Proof.
  intros H Hab. unfold append. apply Forall2_app; [exact H|].
  constructor; [exact Hab | constructor].
Qed.

Lemma assistant_parts (items : list (ContentItem.t V))
  (shown reported : list string) :
  Forall2 samePart shown reported ->
  Forall2 samePart (fold_left formatAssistantItem items shown)
    (fold_left cleanAssistantItem items reported).
Proof.
  revert shown reported.
  induction items as [|item items IH]; intros shown reported H;
    [exact H|].
  simpl. apply IH. unfold formatAssistantItem, cleanAssistantItem.
  destruct (ContentItem.Type_ item =? "text").
  - destruct (nonEmpty (ContentItem.Text item)) eqn:Ht; [|exact H].
    apply Forall2_append; [exact H | now constructor].
  - destruct (ContentItem.Type_ item =? "tool_use"); [|exact H].
    apply Forall2_append; [exact H|].
    now apply (same_tool_use item (serializeInput Marshal item)).
Qed.

Lemma user_part (item : ContentItem.t V) (shown reported : list string)
  (hasError : bool) :
  Forall2 samePart shown reported ->
  Forall2 samePart (formatUserItem shown item)
    (fst (cleanUserItem (reported, hasError) item)).
Proof.
  intros H. unfold formatUserItem, cleanUserItem.
  destruct (ContentItem.Type_ item =? "tool_result").
  - destruct (nonEmpty (resultContentOf item)); simpl fst.
    + apply Forall2_append; [exact H|].
      destruct (ContentItem.IsError item).
      * apply (same_result true).
      * apply (same_result false).
    + apply Forall2_append; [exact H | constructor].
  - destruct (nonEmpty (ContentItem.Text item)) eqn:Ht; simpl fst.
    + apply Forall2_append; [exact H | now constructor].
    + exact H.
Qed.

Lemma user_parts (items : list (ContentItem.t V))
  (shown reported : list string) (hasError : bool) :
  Forall2 samePart shown reported ->
  Forall2 samePart (fold_left formatUserItem items shown)
    (fst (fold_left cleanUserItem items (reported, hasError))).
Proof.
  revert shown reported hasError.
  induction items as [|item items IH]; intros shown reported hasError H;
    [exact H|].
  cbn [fold_left].
  pose proof (user_part item shown reported hasError H) as H'.
  destruct (cleanUserItem (reported, hasError) item) as [reported' e'].
  apply IH. exact H'.
Qed.

(** The two content bodies of an assistant or user event, as joined
    parts. *)
Lemma content_parts (msg : Message.t V) :
  Message.Type_ msg = "assistant" \/ Message.Type_ msg = "user" ->
  exists shown reported,
    Forall2 samePart shown reported /\
    snd (formatJSONMessage msg) = Join shown nl /\
    snd (fst (extractCleanJSONContentWithErrorCheck msg))
    = Join reported (nl ++ nl).
Proof.
  set (items := Body.Content (Message.Message msg)).
  unfold formatJSONMessage, extractCleanJSONContentWithErrorCheck.
  fold items. intros [E|E]; rewrite E.
  - change ("assistant" =? "system") with false.
    change ("assistant" =? "assistant") with true. cbv iota.
    exists (fold_left formatAssistantItem items []),
           (fold_left cleanAssistantItem items []).
    split; [apply assistant_parts; constructor|].
    destruct items; split; reflexivity.
  - change ("user" =? "system") with false.
    change ("user" =? "assistant") with false.
    change ("user" =? "user") with true. cbv iota.
    exists (fold_left formatUserItem items []),
           (fst (fold_left cleanUserItem items ([], false))).
    split; [apply user_parts; constructor|].
    destruct items as [|i items']; [split; reflexivity|].
    change (0 <? List.length (i :: items'))%nat with true. cbv iota.
    destruct (fold_left cleanUserItem (i :: items') ([], false)).
    split; reflexivity.
Qed.

(** C3 (amended).  The annotation and the renderer give an event the same
    speaker.  For a system event and for an unrecognized kind they give
    the same content.  For an assistant or user event both contents are
    joins of parts, one per contributing item in the same order, the
    renderer's with a line feed and the annotation's with a blank line,
    and corresponding parts carry the same content item: the renderer
    writes tool inputs compactly and tool results in colour, both whole;
    only the annotation applies the progressive-disclosure rule. *)
Theorem annotation_content_matches_renderer (msg : Message.t V) :
  fst (fst (extractCleanJSONContentWithErrorCheck msg))
  = fst (formatJSONMessage msg)
  /\ (Message.Type_ msg <> "assistant" -> Message.Type_ msg <> "user" ->
      snd (fst (extractCleanJSONContentWithErrorCheck msg))
      = snd (formatJSONMessage msg))
  /\ (Message.Type_ msg = "assistant" \/ Message.Type_ msg = "user" ->
      exists shown reported,
        Forall2 samePart shown reported /\
        snd (formatJSONMessage msg) = Join shown nl /\
        snd (fst (extractCleanJSONContentWithErrorCheck msg))
        = Join reported (nl ++ nl)).
Proof.
  split; [|split; [|apply content_parts]].
  - unfold formatJSONMessage, extractCleanJSONContentWithErrorCheck.
    destruct (Message.Type_ msg =? "system").
    { now destruct (Message.Subtype msg =? "init"). }
    destruct (Message.Type_ msg =? "assistant"); [reflexivity|].
    destruct (Message.Type_ msg =? "user"); [|reflexivity].
    destruct (0 <? List.length (Body.Content (Message.Message msg)))%nat;
      [|reflexivity].
    now destruct (fold_left cleanUserItem _ _).
  - intros Na Nu.
    unfold formatJSONMessage, extractCleanJSONContentWithErrorCheck.
    destruct (Message.Type_ msg =? "system").
    { now destruct (Message.Subtype msg =? "init"). }
    destruct (String.eqb_spec (Message.Type_ msg) "assistant");
      [contradiction|].
    destruct (String.eqb_spec (Message.Type_ msg) "user");
      [contradiction|].
    reflexivity.
Qed.

End Parts.

(** C3 as stated fails.  The renderer writes a three-line tool result
    whole, where any threshold of the disclosure rule would fold the third
    line away; the annotation folds it. *)
Lemma renderer_applies_no_disclosure :
  @formatJSONMessage asciiStrings nat sampleJSON threeLineResult
  = ("USER",
     ColorMagenta ++ "✅ Tool result:" ++ ColorReset ++ lit "\na\nb\nc")
  /\ @extractCleanJSONContentWithErrorCheck asciiStrings nat sampleJSON
       threeLineResult
     = ("USER", lit "✅ Tool result:\na\nb" ++ moreResult "c", false)
  /\ ~ (forall item : ContentItem.t nat,
          ContentItem.Type_ item = "tool_result" ->
          nonEmpty (@resultContentOf nat sampleJSON item) = true ->
          exists (T : nat) (out : string),
            @formatUserItem nat sampleJSON [] item
            = [(if ContentItem.IsError item
                then ColorRed ++ "❌ Tool error:" ++ ColorReset
                else ColorMagenta ++ "✅ Tool result:" ++ ColorReset)
               ++ nl ++ out] /\
            disclosed T (blockIfAny moreResult)
              (@resultContentOf nat sampleJSON item) out).
Proof.
  split; [vm_compute; reflexivity|]. split; [vm_compute; reflexivity|].
  intros H.
  destruct (H (toolResult nat false (lit "a\nb\nc")) eq_refl eq_refl)
    as (T & out & E & D).
  assert (R : @resultContentOf nat sampleJSON
                (toolResult nat false (lit "a\nb\nc"))
              = lit "a\nb\nc") by (vm_compute; reflexivity).
  rewrite R in D.
  assert (Eo : out = lit "a\nb\nc").
  { unfold formatUserItem in E. rewrite R in E.
    cbn [toolResult ContentItem.Type_ ContentItem.IsError] in E.
    change ("tool_result" =? "tool_result") with true in E.
    change (nonEmpty (lit "a\nb\nc")) with true in E.
    cbv iota in E. unfold append in E. cbn [app] in E.
    injection E as E. now rewrite <- E. }
  apply (disclosed_inline T moreResult) in D; [|apply moreResult_length].
  apply D in Eo. destruct Eo as [Hl _]. vm_compute in Hl. lia.
Qed.

(** ** Traces *)

Lemma entries_app (a b : list event) :
  entries (a ++ b) = (entries a ++ entries b)%list.
Proof. apply flat_map_app. Qed.

Lemma printed_app (a b : list event) :
  printed (a ++ b) = (printed a ++ printed b)%list.
Proof. apply flat_map_app. Qed.

Lemma commands_app (a b : list event) :
  commands (a ++ b) = (commands a ++ commands b)%list.
Proof. apply flat_map_app. Qed.

Lemma warnings_app (a b : list event) :
  warnings (a ++ b) = (warnings a ++ warnings b)%list.
Proof. apply flat_map_app. Qed.

Lemma captured_app (a b : list event) :
  captured (a ++ b) = (captured a ++ captured b)%list.
Proof. apply flat_map_app. Qed.

Lemma fatals_app (a b : list event) :
  fatals (a ++ b) = (fatals a ++ fatals b)%list.
Proof. apply flat_map_app. Qed.

Lemma failed_app (a b : list event) :
  failed (a ++ b) = (failed a ++ failed b)%list.
Proof. apply flat_map_app. Qed.

Lemma others_app (a b : list event) :
  others (a ++ b) = (others a ++ others b)%list.
Proof. apply filter_app. Qed.

Lemma commands_others (t : list event) : commands (others t) = commands t.
Proof.
  induction t as [|e t IH]; [reflexivity|].
  destruct e; simpl; rewrite ?IH; reflexivity.
Qed.

Lemma entries_Stdout (l : list string) : entries (map Stdout l) = [].
Proof. induction l; [reflexivity | exact IHl]. Qed.

Lemma printed_Stdout (l : list string) : printed (map Stdout l) = l.
Proof. induction l; [reflexivity | simpl; now rewrite IHl]. Qed.

Lemma commands_Stdout (l : list string) : commands (map Stdout l) = [].
Proof. induction l; [reflexivity | exact IHl]. Qed.

Lemma warnings_Stdout (l : list string) : warnings (map Stdout l) = [].
Proof. induction l; [reflexivity | exact IHl]. Qed.

Lemma captured_Stdout (l : list string) : captured (map Stdout l) = [].
Proof. induction l; [reflexivity | exact IHl]. Qed.

Lemma fatals_Stdout (l : list string) : fatals (map Stdout l) = [].
Proof. induction l; [reflexivity | exact IHl]. Qed.

Lemma failed_Stdout (l : list string) : failed (map Stdout l) = [].
Proof. induction l; [reflexivity | exact IHl]. Qed.

Lemma others_Stdout (l : list string) : others (map Stdout l) = map Stdout l.
Proof. induction l; [reflexivity | simpl; now rewrite IHl]. Qed.

Section Turns.

Context {Str : Strings} {V : Type} {J : JSON V} {O : OS}.

Lemma createBuildkiteAnnotation_trace (w : World) (line : string)
  (lineNumber : Z) (timestamp : string) :
  createBuildkiteAnnotation w line lineNumber timestamp
  = emitAll w (annotationEvents (List.length (commands (trace w))) line
                 lineNumber timestamp).
Proof.
  unfold createBuildkiteAnnotation, annotationEvents, emitAll, emit.
  destruct (annotationCommand line lineNumber timestamp) as [cmd|].
  - destruct (Run (List.length (commands (trace w))) cmd); simpl;
      rewrite <- ?app_assoc; reflexivity.
  - destruct w; simpl. now rewrite app_nil_r.
Qed.

(** One turn appends [turnEvents] and moves the counter as [parseLine]
    says. *)
Lemma handleLine_trace (w : World) (line : string) (now : Z) :
  handleLine w line now
  = {| staticLineNum := snd (parseLine (staticLineNum w) line now);
       trace := trace w
                ++ turnEvents (staticLineNum w)
                     (List.length (commands (trace w))) line now |}%list.
Proof.
  unfold handleLine, turnEvents.
  destruct (parseLine (staticLineNum w) line now) as [[entry|] n];
    simpl fst; simpl snd.
  - rewrite createBuildkiteAnnotation_trace. unfold emitAll, emit.
    cbn [trace staticLineNum].
    rewrite !commands_app, commands_Stdout.
    cbn [commands flat_map app]. rewrite !app_nil_r.
    rewrite <- !app_assoc. reflexivity.
  - now rewrite app_nil_r.
Qed.

Lemma annotationEvents_facts (k : nat) (line : string) (lineNumber : Z)
  (timestamp : string) :
  let t := annotationEvents k line lineNumber timestamp in
  entries t = [] /\ printed t = [] /\ captured t = [] /\ fatals t = []
  /\ others t = t
  /\ commands t = match annotationCommand line lineNumber timestamp with
                  | Some cmd => [cmd]
                  | None => []
                  end
  /\ warnings t
     = map (fun e => "Warning: Failed to create Buildkite annotation: " ++ e)
         (failed t).
Proof.
  unfold annotationEvents.
  destruct (annotationCommand line lineNumber timestamp) as [cmd|];
    [|repeat split].
  destruct (Run k cmd); repeat split.
Qed.

End Turns.

(** ** One line *)

Section Lines.

Context {Str : Strings} {V : Type} {J : JSON V} {O : OS}.

Lemma parseLine_blank (n : Z) (line : string) (now : Z) :
  TrimSpace line = EmptyString -> parseLine n line now = (None, n).
Proof. intros E. unfold parseLine. now rewrite E. Qed.

(** A non-blank line always yields an entry, numbered by the advanced
    counter. *)
Lemma parseLine_entry (n : Z) (line : string) (now : Z) :
  TrimSpace line <> EmptyString ->
  exists entry,
    parseLine n line now = (Some entry, wrap_int (n + 1)) /\
    ChatEntry.LineNumber entry = wrap_int (n + 1) /\
    ChatEntry.RawLine entry = TrimSpace line /\
    ChatEntry.Timestamp entry = formatRelativeTime now /\
    (ChatEntry.IsJSON entry,
     (ChatEntry.Speaker entry, ChatEntry.Content entry))
    = if HasPrefix_brace (TrimSpace line) then
        match Unmarshal_Message (TrimSpace line) with
        | Some msg => (true, formatJSONMessage msg)
        | None => (false, ("SYSTEM", TrimSpace line))
        end
      else (false, ("SYSTEM", TrimSpace line)).
Proof.
  intros N. unfold parseLine.
  destruct (String.eqb_spec (TrimSpace line) EmptyString) as [E|_];
    [contradiction|].
  destruct (if HasPrefix_brace (TrimSpace line)
            then match Unmarshal_Message (TrimSpace line) with
                 | Some msg => (true, formatJSONMessage msg)
                 | None => (false, ("SYSTEM", TrimSpace line))
                 end
            else (false, ("SYSTEM", TrimSpace line)))
    as [isJSON [speaker content]].
  eexists. split; [reflexivity|]. repeat split.
Qed.

Lemma printLines_not_nil (prefix contentColor : string) (i : nat)
  (lines : list string) :
  lines <> [] -> printLines prefix contentColor i lines <> [].
Proof. destruct lines; [congruence | discriminate]. Qed.

Lemma printSingleEntry_nil (entry : ChatEntry.t) :
  printSingleEntry entry = [] <-> ChatEntry.Content entry = EmptyString.
Proof.
  unfold printSingleEntry.
  destruct (String.eqb_spec (ChatEntry.Content entry) EmptyString)
    as [E|N]; [tauto|].
  split; [|contradiction]. intros H. exfalso.
  destruct (if ChatEntry.Speaker entry =? "ASSISTANT"
            then (ColorGreen ++ ColorBold, ColorGreen)
            else if ChatEntry.Speaker entry =? "USER"
            then (ColorBlue ++ ColorBold, ColorBlue)
            else if ChatEntry.Speaker entry =? "SYSTEM"
            then (ColorYellow ++ ColorBold, ColorGray)
            else (ColorWhite, ColorWhite)) as [speakerColor contentColor].
  apply app_eq_nil in H. destruct H as [H _].
  revert H. apply printLines_not_nil, Split_not_nil.
Qed.

Lemma Join_empty_nil (l : list string) (sep : string) :
  Forall (fun x => x <> EmptyString) l ->
  Join l sep = EmptyString -> l = [].
Proof.
  intros F E. destruct l as [|a l]; [reflexivity|]. exfalso.
  inversion F as [|? ? Ha _]; subst. apply Ha.
  destruct l as [|b l]; [exact E|].
  rewrite Join_cons in E by discriminate.
  apply length_zero_empty. apply (f_equal String.length) in E.
  rewrite length_append in E. simpl in E. lia.
Qed.

Lemma samePart_shown_nonempty (shown reported : list string) :
  Forall2 samePart shown reported ->
  Forall (fun x => x <> EmptyString) shown.
Proof.
  induction 1 as [|a b shown reported Hab _ IH]; constructor; [|exact IH].
  now apply samePart_nonempty in Hab.
Qed.

(** An event the renderer has nothing to show for has an empty annotation
    content too. *)
Lemma empty_content_both (msg : Message.t V) :
  snd (formatJSONMessage msg) = EmptyString ->
  snd (fst (extractCleanJSONContentWithErrorCheck msg)) = EmptyString.
Proof.
  intros E.
  destruct (String.eqb_spec (Message.Type_ msg) "assistant") as [Ea|Na];
    [|destruct (String.eqb_spec (Message.Type_ msg) "user") as [Eu|Nu]].
  1,2: destruct (content_parts msg) as (shown & reported & F & Hs & Hr);
    [auto|]; rewrite Hr; rewrite Hs in E;
    apply Join_empty_nil in E; [|now apply (samePart_shown_nonempty _ reported)];
    subst shown; inversion F; reflexivity.
  exfalso. revert E. unfold formatJSONMessage.
  destruct (Message.Type_ msg =? "system").
  { destruct (Message.Subtype msg =? "init"); discriminate. }
  destruct (String.eqb_spec (Message.Type_ msg) "assistant");
    [contradiction|].
  destruct (String.eqb_spec (Message.Type_ msg) "user");
    [contradiction|].
  discriminate.
Qed.

Lemma annotationCommand_Some (line : string) (lineNumber : Z)
  (timestamp : string) :
  TrimSpace line <> EmptyString ->
  annotationContent (TrimSpace line) <> None ->
  exists cmd, annotationCommand line lineNumber timestamp = Some cmd.
Proof.
  intros N C. unfold annotationCommand.
  destruct (String.eqb_spec (TrimSpace line) EmptyString);
    [contradiction|].
  destruct (annotationContent (TrimSpace line)) as [[[sp c] e]|];
    [|contradiction].
  destruct (speakerHeader sp e). eexists. reflexivity.
Qed.

Lemma annotationCommand_None (line : string) (lineNumber : Z)
  (timestamp : string) :
  TrimSpace line <> EmptyString ->
  (annotationCommand line lineNumber timestamp = None <->
   annotationContent (TrimSpace line) = None).
Proof.
  intros N. split.
  - intros H. destruct (annotationContent (TrimSpace line)) eqn:C;
      [|reflexivity].
    destruct (annotationCommand_Some line lineNumber timestamp N)
      as [cmd Hc]; [now rewrite C | congruence].
  - intros C. unfold annotationCommand. rewrite C.
    now destruct (TrimSpace line =? "").
Qed.

(** The annotation is skipped exactly on the sentinel of a decoded event. *)
Lemma annotationContent_None (raw : string) :
  annotationContent raw = None <->
  HasPrefix_brace raw = true /\
  exists msg,
    Unmarshal_Message raw = Some msg /\
    snd (fst (extractCleanJSONContentWithErrorCheck msg))
    = "Unknown message type".
Proof.
  unfold annotationContent. destruct (HasPrefix_brace raw).
  - destruct (Unmarshal_Message raw) as [msg|].
    + destruct (extractCleanJSONContentWithErrorCheck msg)
        as [[speaker content] hasError] eqn:X.
      destruct (String.eqb_spec content "Unknown message type") as [E|N].
      * split; [|reflexivity]. intros _. split; [reflexivity|].
        exists msg. now rewrite X.
      * split; [discriminate|].
        intros (_ & msg' & Hm & Hc). injection Hm as <-.
        rewrite X in Hc. contradiction.
    + split; [discriminate|]. now intros (_ & msg & Hm & _).
  - split; [discriminate|]. now intros [H _].
Qed.

Lemma handleLine_commands (w : World) (line : string) (now : Z) :
  commands (trace (handleLine w line now))
  = (commands (trace w)
     ++ match fst (parseLine (staticLineNum w) line now) with
        | Some entry =>
            match annotationCommand line (ChatEntry.LineNumber entry)
                    (ChatEntry.Timestamp entry) with
            | Some cmd => [cmd]
            | None => []
            end
        | None => []
        end)%list.
Proof.
  rewrite handleLine_trace. cbn [trace]. rewrite commands_app.
  unfold turnEvents.
  destruct (fst (parseLine (staticLineNum w) line now)) as [entry|];
    [|reflexivity].
  rewrite commands_app. cbn [commands flat_map app].
  fold (commands (map Stdout (printSingleEntry entry))).
  rewrite commands_Stdout. cbn [app].
  now destruct (annotationEvents_facts (List.length (commands (trace w)))
                  line (ChatEntry.LineNumber entry)
                  (ChatEntry.Timestamp entry))
    as (_ & _ & _ & _ & _ & -> & _).
Qed.

Lemma handleLine_printed (w : World) (line : string) (now : Z) :
  printed (trace (handleLine w line now))
  = (printed (trace w)
     ++ match fst (parseLine (staticLineNum w) line now) with
        | Some entry => printSingleEntry entry
        | None => []
        end)%list.
Proof.
  rewrite handleLine_trace. cbn [trace]. rewrite printed_app.
  unfold turnEvents.
  destruct (fst (parseLine (staticLineNum w) line now)) as [entry|];
    [|reflexivity].
  rewrite printed_app. cbn [printed flat_map app].
  fold (printed (map Stdout (printSingleEntry entry))).
  rewrite printed_Stdout.
  destruct (annotationEvents_facts (List.length (commands (trace w)))
              line (ChatEntry.LineNumber entry)
              (ChatEntry.Timestamp entry))
    as (_ & -> & _). now rewrite app_nil_r.
Qed.

Lemma handleLine_entries (w : World) (line : string) (now : Z) :
  entries (trace (handleLine w line now))
  = (entries (trace w)
     ++ match fst (parseLine (staticLineNum w) line now) with
        | Some entry => [entry]
        | None => []
        end)%list.
Proof.
  rewrite handleLine_trace. cbn [trace]. rewrite entries_app.
  unfold turnEvents.
  destruct (fst (parseLine (staticLineNum w) line now)) as [entry|];
    [|reflexivity].
  rewrite entries_app. cbn [entries flat_map app].
  fold (entries (map Stdout (printSingleEntry entry))).
  rewrite entries_Stdout.
  now destruct (annotationEvents_facts (List.length (commands (trace w)))
                  line (ChatEntry.LineNumber entry)
                  (ChatEntry.Timestamp entry))
    as (-> & _).
Qed.

Lemma handleLine_fatals (w : World) (line : string) (now : Z) :
  fatals (trace (handleLine w line now)) = fatals (trace w).
Proof.
  rewrite handleLine_trace. cbn [trace]. rewrite fatals_app.
  unfold turnEvents.
  destruct (fst (parseLine (staticLineNum w) line now)) as [entry|];
    [|now rewrite app_nil_r].
  rewrite fatals_app. cbn [fatals flat_map app].
  fold (fatals (map Stdout (printSingleEntry entry))).
  rewrite fatals_Stdout.
  destruct (annotationEvents_facts (List.length (commands (trace w)))
              line (ChatEntry.LineNumber entry)
              (ChatEntry.Timestamp entry))
    as (_ & _ & _ & -> & _). now rewrite app_nil_r.
Qed.

Lemma handleLine_counter (w : World) (line : string) (now : Z) :
  staticLineNum (handleLine w line now)
  = snd (parseLine (staticLineNum w) line now).
Proof. now rewrite handleLine_trace. Qed.

End Lines.

(** ** Claims about one line *)

Section LineClaims.

Context {Str : Strings} {V : Type} {J : JSON V} {O : OS}.

Lemma parseLine_Some_nonblank (n : Z) (line : string) (now : Z)
  (entry : ChatEntry.t) (n' : Z) :
  parseLine n line now = (Some entry, n') ->
  TrimSpace line <> EmptyString.
Proof.
  intros H E. rewrite (parseLine_blank n line now E) in H. discriminate.
Qed.

Lemma app_one_neq (A : Type) (l : list A) (x : A) : (l ++ [x])%list <> l.
Proof.
  intros E. apply (f_equal (@List.length A)) in E.
  rewrite length_app in E. simpl in E. lia.
Qed.

(** C4 (amended).  For every input line whose classified content is the
    empty string nothing is printed to the transcript; the line still
    takes the next line number, and the annotation emitter is still run
    for it: exactly one annotation command is issued. *)
Theorem empty_content_is_not_printed_but_is_annotated
  (w : World) (line : string) (now : Z) (entry : ChatEntry.t) (n : Z) :
  parseLine (staticLineNum w) line now = (Some entry, n) ->
  ChatEntry.Content entry = EmptyString ->
  printSingleEntry entry = []
  /\ printed (trace (handleLine w line now)) = printed (trace w)
  /\ ChatEntry.LineNumber entry = wrap_int (staticLineNum w + 1)
  /\ staticLineNum (handleLine w line now) = wrap_int (staticLineNum w + 1)
  /\ exists cmd,
       annotationCommand line (ChatEntry.LineNumber entry)
         (ChatEntry.Timestamp entry) = Some cmd /\
       commands (trace (handleLine w line now))
       = (commands (trace w) ++ [cmd])%list.
Proof.
  intros P C.
  pose proof (parseLine_Some_nonblank _ _ _ _ _ P) as N.
  destruct (parseLine_entry (staticLineNum w) line now N)
    as (entry' & P' & Hn & _ & _ & Hc).
  rewrite P in P'. injection P' as <- Hn'.
  split; [now apply printSingleEntry_nil|].
  split.
  { rewrite handleLine_printed, P. cbn [fst].
    rewrite (proj2 (printSingleEntry_nil entry) C). apply app_nil_r. }
  split; [exact Hn|].
  split; [now rewrite handleLine_counter, P|].
  assert (A : annotationContent (TrimSpace line) <> None).
  { unfold annotationContent.
    destruct (HasPrefix_brace (TrimSpace line)); [|discriminate].
    destruct (Unmarshal_Message (TrimSpace line)) as [msg|];
      [|discriminate].
    injection Hc as _ Hc. apply (f_equal snd) in Hc. cbn [snd] in Hc.
    rewrite C in Hc. symmetry in Hc. apply empty_content_both in Hc.
    destruct (extractCleanJSONContentWithErrorCheck msg)
      as [[speaker content] hasError].
    simpl in Hc. subst content. discriminate. }
  destruct (annotationCommand_Some line (ChatEntry.LineNumber entry)
              (ChatEntry.Timestamp entry) N A) as [cmd Hcmd].
  exists cmd. split; [exact Hcmd|].
  rewrite handleLine_commands, P. cbn [fst]. now rewrite Hcmd.
Qed.

(** C5 (amended).  For a non-blank line the annotation emitter issues no
    command exactly when the line decodes as a JSON event and the content
    classified for that event equals the literal ["Unknown message type"].
    So every decoded event whose kind is not system, assistant or user
    gets no annotation while it is printed in the transcript, and so does
    any decoded event whose content is that literal; a line that is not
    decoded is annotated whatever its text. *)
Theorem annotation_skipped_iff_decoded_sentinel
  (w : World) (line : string) (now : Z) :
  TrimSpace line <> EmptyString ->
  (commands (trace (handleLine w line now)) = commands (trace w) <->
   HasPrefix_brace (TrimSpace line) = true /\
   exists msg,
     Unmarshal_Message (TrimSpace line) = Some msg /\
     snd (fst (extractCleanJSONContentWithErrorCheck msg))
     = "Unknown message type")
  /\ (forall msg,
        HasPrefix_brace (TrimSpace line) = true ->
        Unmarshal_Message (TrimSpace line) = Some msg ->
        Message.Type_ msg <> "system" ->
        Message.Type_ msg <> "assistant" ->
        Message.Type_ msg <> "user" ->
        commands (trace (handleLine w line now)) = commands (trace w) /\
        exists entry,
          fst (parseLine (staticLineNum w) line now) = Some entry /\
          ChatEntry.Speaker entry = ToUpper (Message.Type_ msg) /\
          ChatEntry.Content entry = "Unknown message type" /\
          printSingleEntry entry <> [] /\
          printed (trace (handleLine w line now))
          = (printed (trace w) ++ printSingleEntry entry)%list).
Proof.
  intros N.
  destruct (parseLine_entry (staticLineNum w) line now N)
    as (entry & P & _ & _ & _ & Hc).
  assert (S : commands (trace (handleLine w line now)) = commands (trace w)
              <-> annotationContent (TrimSpace line) = None).
  { rewrite handleLine_commands, P. simpl fst.
    rewrite <- (annotationCommand_None line (ChatEntry.LineNumber entry)
                  (ChatEntry.Timestamp entry) N).
    destruct (annotationCommand line (ChatEntry.LineNumber entry)
                (ChatEntry.Timestamp entry)) as [cmd|].
    - split; [|discriminate]. intros E. now apply app_one_neq in E.
    - rewrite app_nil_r. tauto. }
  split; [now rewrite S, annotationContent_None|].
  intros msg Hp Hm Ns Na Nu.
  assert (K : extractCleanJSONContentWithErrorCheck msg
              = (ToUpper (Message.Type_ msg), "Unknown message type", false)
              /\ formatJSONMessage msg
                 = (ToUpper (Message.Type_ msg), "Unknown message type")).
  { unfold extractCleanJSONContentWithErrorCheck, formatJSONMessage.
    destruct (String.eqb_spec (Message.Type_ msg) "system");
      [contradiction|].
    destruct (String.eqb_spec (Message.Type_ msg) "assistant");
      [contradiction|].
    destruct (String.eqb_spec (Message.Type_ msg) "user");
      [contradiction|].
    now split. }
  destruct K as [Ke Kf].
  split.
  { apply S, annotationContent_None. split; [exact Hp|].
    exists msg. split; [exact Hm | now rewrite Ke]. }
  exists entry. rewrite P. split; [reflexivity|].
  rewrite Hp, Hm, Kf in Hc. injection Hc as _ Hs Hco.
  split; [exact Hs|]. split; [exact Hco|].
  split.
  - intros E. apply printSingleEntry_nil in E. rewrite Hco in E.
    discriminate.
  - now rewrite handleLine_printed, P.
Qed.

(** C7.  A line that is non-empty after trimming and is not valid JSON
    yields an entry: speaker SYSTEM, not JSON, content the text of the
    line as [parseLine] keeps it ([RawLine]: the line without its
    surrounding white space, so the line itself when it has none).  The
    entry is printed, takes the next line number, and the turn raises no
    fatal error. *)
Theorem non_json_line_becomes_system_entry
  (w : World) (line : string) (now : Z) :
  TrimSpace line <> EmptyString ->
  Valid (TrimSpace line) = false ->
  exists entry,
    parseLine (staticLineNum w) line now
    = (Some entry, wrap_int (staticLineNum w + 1)) /\
    ChatEntry.Speaker entry = "SYSTEM" /\
    ChatEntry.IsJSON entry = false /\
    ChatEntry.Content entry = ChatEntry.RawLine entry /\
    ChatEntry.RawLine entry = TrimSpace line /\
    (TrimSpace line = line -> ChatEntry.Content entry = line) /\
    ChatEntry.LineNumber entry = wrap_int (staticLineNum w + 1) /\
    printSingleEntry entry <> [] /\
    entries (trace (handleLine w line now))
    = (entries (trace w) ++ [entry])%list /\
    printed (trace (handleLine w line now))
    = (printed (trace w) ++ printSingleEntry entry)%list /\
    fatals (trace (handleLine w line now)) = fatals (trace w).
Proof.
  intros N Hv.
  destruct (parseLine_entry (staticLineNum w) line now N)
    as (entry & P & Hn & Hr & _ & Hc).
  assert (U : Unmarshal_Message (TrimSpace line) = None).
  { destruct (Unmarshal_Message (TrimSpace line)) as [msg|] eqn:U;
      [|reflexivity].
    apply Unmarshal_Message_Valid in U. congruence. }
  rewrite U in Hc.
  assert (Hc' : (ChatEntry.IsJSON entry,
                 (ChatEntry.Speaker entry, ChatEntry.Content entry))
                = (false, ("SYSTEM", TrimSpace line)))
    by (now destruct (HasPrefix_brace (TrimSpace line))).
  injection Hc' as Hj Hs Hco.
  exists entry. split; [exact P|]. split; [exact Hs|].
  split; [exact Hj|]. split; [congruence|]. split; [exact Hr|].
  split; [congruence|]. split; [exact Hn|].
  split.
  { intros E. apply printSingleEntry_nil in E. congruence. }
  split; [now rewrite handleLine_entries, P|].
  split; [now rewrite handleLine_printed, P|].
  apply handleLine_fatals.
Qed.

End LineClaims.

(** C10.  A line that, once trimmed, is non-empty and does not begin with
    an opening brace is never handed to the JSON decoder: the whole turn is
    the same under any two decoders.  Whatever its text (an array, a quoted
    string, a number), it yields a SYSTEM entry that is not JSON and whose
    content is the trimmed line, and the annotation emitter treats it
    alike: a "warning" annotation under the SYSTEM header with the line as
    content and, verbatim, in the raw block. *)
Theorem line_without_brace_is_never_decoded
  (Str : Strings) (O : OS) (V1 V2 : Type) (J1 : JSON V1) (J2 : JSON V2)
  (w : World) (line : string) (now : Z) :
  TrimSpace line <> EmptyString ->
  HasPrefix_brace (TrimSpace line) = false ->
  @handleLine Str V1 J1 O w line now = @handleLine Str V2 J2 O w line now
  /\ exists entry cmd,
       @parseLine Str V1 J1 (staticLineNum w) line now
       = (Some entry, wrap_int (staticLineNum w + 1)) /\
       ChatEntry.Speaker entry = "SYSTEM" /\
       ChatEntry.IsJSON entry = false /\
       ChatEntry.Content entry = TrimSpace line /\
       @annotationCommand Str V1 J1 line (ChatEntry.LineNumber entry)
         (ChatEntry.Timestamp entry) = Some cmd /\
       Cmd.Args cmd
       = ["annotate"; "--style"; "warning"; "--context";
          "chat-message-" ++ fmt_d (ChatEntry.LineNumber entry);
          "--priority"; "5"] /\
       Cmd.Stdin cmd
       = "**Message " ++ fmt_d (ChatEntry.LineNumber entry) ++ "** - `"
           ++ ChatEntry.Timestamp entry ++ lit "`\n\n"
           ++ lit "⚙️ **SYSTEM**:\n\n"
           ++ TrimSpace line
           ++ lit "\n\n<details>\n<summary>Show JSON</summary>\n\n```json\n"
           ++ TrimSpace line
           ++ lit "\n```\n\n</details>".
Proof.
  intros N Hp. split.
  - unfold handleLine, parseLine, createBuildkiteAnnotation,
      annotationCommand, annotationContent, prettyRaw.
    rewrite Hp. reflexivity.
  - unfold parseLine, annotationCommand, annotationContent, prettyRaw.
    rewrite Hp.
    destruct (String.eqb_spec (TrimSpace line) EmptyString) as [E|_];
      [contradiction|].
    replace (nonEmpty (TrimSpace line)) with true
      by (symmetry; now apply nonEmpty_true).
    eexists _, _. repeat split; reflexivity.
Qed.

(** ** The claims at concrete lines *)

(** C7 at the line [  not json at all ]. *)
Lemma non_json_line_witness :
  exists entry,
    fst (@parseLine asciiStrings nat sampleJSON 0 "  not json at all " 5)
    = Some entry /\
    ChatEntry.Speaker entry = "SYSTEM" /\
    ChatEntry.IsJSON entry = false /\
    ChatEntry.Content entry = "not json at all".
Proof.
  destruct (@non_json_line_becomes_system_entry asciiStrings nat sampleJSON
              agentUp initial "  not json at all " 5)
    as (entry & P & Hs & Hj & Hc & Hr & _).
  - vm_compute. discriminate.
  - reflexivity.
  - exists entry. change (staticLineNum initial) with 0%Z in P.
    rewrite P. split; [reflexivity|]. split; [exact Hs|].
    split; [exact Hj|]. rewrite Hc, Hr. reflexivity.
Defined.

(** C10 at the line [[1,2,3]]. *)
Lemma line_without_brace_witness :
  @handleLine asciiStrings nat sampleJSON agentDown initial "[1,2,3]" 0
  = @handleLine asciiStrings nat sampleJSON agentDown initial "[1,2,3]" 0
  /\ exists entry,
       fst (@parseLine asciiStrings nat sampleJSON 0 "[1,2,3]" 0)
       = Some entry /\
       ChatEntry.Speaker entry = "SYSTEM" /\
       ChatEntry.Content entry = "[1,2,3]".
Proof.
  destruct (line_without_brace_is_never_decoded asciiStrings agentDown
              nat nat sampleJSON sampleJSON initial "[1,2,3]" 0)
    as (E & entry & cmd & P & Hs & _ & Hc & _).
  - vm_compute. discriminate.
  - reflexivity.
  - split; [exact E|]. exists entry.
    change (staticLineNum initial) with 0%Z in P. rewrite P.
    split; [reflexivity|]. split; [exact Hs|]. exact Hc.
Defined.

(** C4 (amended) at the line [{"type":"assistant"}]. *)
Lemma empty_content_witness :
  printed (trace (@handleLine asciiStrings nat sampleJSON agentUp initial
                    (json_lit "{'type':'assistant'}") 7)) = []
  /\ List.length
       (commands (trace (@handleLine asciiStrings nat sampleJSON agentUp
                           initial (json_lit "{'type':'assistant'}") 7)))
     = 1%nat.
Proof.
  destruct (@empty_content_is_not_printed_but_is_annotated asciiStrings nat
              sampleJSON agentUp initial
              (json_lit "{'type':'assistant'}") 7
              {| ChatEntry.LineNumber := 1;
                 ChatEntry.Speaker := "ASSISTANT";
                 ChatEntry.Content := EmptyString;
                 ChatEntry.Timestamp := "00:07";
                 ChatEntry.IsJSON := true;
                 ChatEntry.RawLine := json_lit "{'type':'assistant'}" |}
              1%Z)
    as (_ & Hp & _ & _ & cmd & _ & Hc).
  - vm_compute. reflexivity.
  - reflexivity.
  - split; [exact Hp|]. rewrite Hc. reflexivity.
Defined.

(** C5 (amended) at the line [{"type":"result"}]. *)
Lemma unknown_kind_witness :
  commands (trace (@handleLine asciiStrings nat sampleJSON agentUp initial
                     (json_lit "{'type':'result'}") 0)) = []
  /\ exists entry,
       fst (@parseLine asciiStrings nat sampleJSON 0
              (json_lit "{'type':'result'}") 0) = Some entry /\
       ChatEntry.Speaker entry = "RESULT" /\
       ChatEntry.Content entry = "Unknown message type".
Proof.
  destruct (@annotation_skipped_iff_decoded_sentinel asciiStrings nat
              sampleJSON agentUp initial (json_lit "{'type':'result'}") 0)
    as (_ & H).
  - vm_compute. discriminate.
  - destruct (H (messageOf "result" []))
      as (Hc & entry & P & Hs & Hco & _).
    + reflexivity.
    + vm_compute. reflexivity.
    + discriminate.
    + discriminate.
    + discriminate.
    + split; [exact Hc|]. exists entry. split; [exact P|].
      split; [exact Hs | exact Hco].
Defined.

(** C4 as stated fails.  The line [{"type":"assistant"}] classifies to the
    empty content: nothing is printed, yet the line takes number 1 and an
    annotation is issued for it. *)
Lemma empty_entry_is_still_annotated :
  (exists entry,
      entries (trace (@handleLine asciiStrings nat sampleJSON agentUp
                        initial (json_lit "{'type':'assistant'}") 7))
      = [entry] /\
      ChatEntry.Content entry = EmptyString /\
      ChatEntry.LineNumber entry = 1%Z)
  /\ printed (trace (@handleLine asciiStrings nat sampleJSON agentUp
                       initial (json_lit "{'type':'assistant'}") 7)) = []
  /\ map Cmd.Args
       (commands (trace (@handleLine asciiStrings nat sampleJSON agentUp
                           initial (json_lit "{'type':'assistant'}") 7)))
     = [["annotate"; "--style"; "info"; "--context"; "chat-message-1";
         "--priority"; "5"]]
  /\ ~ (forall (w : World) (line : string) (now : Z)
               (entry : ChatEntry.t) (n : Z),
          @parseLine asciiStrings nat sampleJSON (staticLineNum w) line now
          = (Some entry, n) ->
          ChatEntry.Content entry = EmptyString ->
          commands (trace (@handleLine asciiStrings nat sampleJSON agentUp
                             w line now))
          = commands (trace w)).
Proof.
  split; [eexists; split; [vm_compute; reflexivity | split; reflexivity]|].
  split; [vm_compute; reflexivity|].
  split; [vm_compute; reflexivity|].
  intros H.
  specialize (H initial (json_lit "{'type':'assistant'}") 7%Z
                {| ChatEntry.LineNumber := 1;
                   ChatEntry.Speaker := "ASSISTANT";
                   ChatEntry.Content := EmptyString;
                   ChatEntry.Timestamp := "00:07";
                   ChatEntry.IsJSON := true;
                   ChatEntry.RawLine := json_lit "{'type':'assistant'}" |}
                1%Z).
  assert (P : @parseLine asciiStrings nat sampleJSON (staticLineNum initial)
                (json_lit "{'type':'assistant'}") 7
              = (Some {| ChatEntry.LineNumber := 1;
                         ChatEntry.Speaker := "ASSISTANT";
                         ChatEntry.Content := EmptyString;
                         ChatEntry.Timestamp := "00:07";
                         ChatEntry.IsJSON := true;
                         ChatEntry.RawLine :=
                           json_lit "{'type':'assistant'}" |}, 1%Z))
    by (vm_compute; reflexivity).
  specialize (H P eq_refl). apply (f_equal (@List.length Cmd.t)) in H.
  vm_compute in H. discriminate H.
Qed.

(** C5 as stated fails.  The plain-text line [Unknown message type] is not
    decoded; its entry's content equals the literal, and it is annotated
    all the same. *)
Lemma plain_text_sentinel_is_annotated :
  (exists entry,
      entries (trace (@handleLine asciiStrings nat sampleJSON agentUp
                        initial "Unknown message type" 0))
      = [entry] /\
      ChatEntry.Content entry = "Unknown message type" /\
      ChatEntry.Speaker entry = "SYSTEM")
  /\ map Cmd.Args
       (commands (trace (@handleLine asciiStrings nat sampleJSON agentUp
                           initial "Unknown message type" 0)))
     = [["annotate"; "--style"; "warning"; "--context"; "chat-message-1";
         "--priority"; "5"]]
  /\ ~ (forall (w : World) (line : string) (now : Z)
               (entry : ChatEntry.t) (n : Z),
          @parseLine asciiStrings nat sampleJSON (staticLineNum w) line now
          = (Some entry, n) ->
          (commands (trace (@handleLine asciiStrings nat sampleJSON agentUp
                              w line now))
           = commands (trace w)
           <-> ChatEntry.Content entry = "Unknown message type")).
Proof.
  split; [eexists; split; [vm_compute; reflexivity | split; reflexivity]|].
  split; [vm_compute; reflexivity|].
  intros H.
  specialize (H initial "Unknown message type" 0%Z
                {| ChatEntry.LineNumber := 1;
                   ChatEntry.Speaker := "SYSTEM";
                   ChatEntry.Content := "Unknown message type";
                   ChatEntry.Timestamp := "00:00";
                   ChatEntry.IsJSON := false;
                   ChatEntry.RawLine := "Unknown message type" |}
                1%Z).
  assert (P : @parseLine asciiStrings nat sampleJSON (staticLineNum initial)
                "Unknown message type" 0
              = (Some {| ChatEntry.LineNumber := 1;
                         ChatEntry.Speaker := "SYSTEM";
                         ChatEntry.Content := "Unknown message type";
                         ChatEntry.Timestamp := "00:00";
                         ChatEntry.IsJSON := false;
                         ChatEntry.RawLine := "Unknown message type" |},
                 1%Z))
    by (vm_compute; reflexivity).
  destruct (H P) as [_ H']. specialize (H' eq_refl).
  apply (f_equal (@List.length Cmd.t)) in H'.
  vm_compute in H'. discriminate H'.
Qed.

(** ** Whole runs *)

Lemma entries_others (t : list event) : entries (others t) = entries t.
Proof.
  induction t as [|e t IH]; [reflexivity|].
  destruct e; simpl; rewrite ?IH; reflexivity.
Qed.

Lemma printed_others (t : list event) : printed (others t) = printed t.
Proof.
  induction t as [|e t IH]; [reflexivity|].
  destruct e; simpl; rewrite ?IH; reflexivity.
Qed.

Lemma wrap_int_small (z : Z) :
  (- 2 ^ 63 <= z < 2 ^ 63)%Z -> wrap_int z = z.
Proof. intros H. unfold wrap_int. rewrite Z.mod_small; lia. Qed.

Section Runs.

Context {Str : Strings} {V : Type} {J : JSON V} {O : OS}.

Lemma turnEvents_quiet (n : Z) (k : nat) (line : string) (now : Z) :
  let t := turnEvents n k line now in
  captured t = [] /\ fatals t = [] /\ others t = t
  /\ warnings t
     = map (fun e => "Warning: Failed to create Buildkite annotation: " ++ e)
         (failed t).
Proof.
  unfold turnEvents.
  destruct (fst (parseLine n line now)) as [entry|]; [|repeat split].
  destruct (annotationEvents_facts k line (ChatEntry.LineNumber entry)
              (ChatEntry.Timestamp entry))
    as (_ & _ & Hc & Hf & Ho & _ & Hw).
  cbv zeta. rewrite captured_app, fatals_app, others_app, warnings_app,
    failed_app, Hc, Hf, Ho, Hw.
  cbn [captured fatals others warnings failed flat_map filter isFileWrite
       negb app].
  fold (captured (map Stdout (printSingleEntry entry))).
  fold (fatals (map Stdout (printSingleEntry entry))).
  fold (others (map Stdout (printSingleEntry entry))).
  fold (warnings (map Stdout (printSingleEntry entry))).
  fold (failed (map Stdout (printSingleEntry entry))).
  rewrite captured_Stdout, fatals_Stdout, others_Stdout, warnings_Stdout,
    failed_Stdout.
  repeat split.
Qed.

Lemma handleLine_extends (w : World) (line : string) (now : Z) :
  exists tail,
    trace (handleLine w line now) = (trace w ++ tail)%list /\
    captured tail = [] /\ others tail = tail /\
    warnings tail
    = map (fun e => "Warning: Failed to create Buildkite annotation: " ++ e)
        (failed tail).
Proof.
  rewrite handleLine_trace. cbn [trace].
  destruct (turnEvents_quiet (staticLineNum w)
              (List.length (commands (trace w))) line now)
    as (Hc & _ & Ho & Hw).
  eexists. split; [reflexivity|]. now repeat split.
Qed.

(** Line numbers along the plain loop. *)
Lemma streamLines_numbers (lines : list (string * Z)) (w : World) (k : nat) :
  staticLineNum w = Z.of_nat k ->
  (Z.of_nat (k + List.length (nonblank lines)) < 2 ^ 63)%Z ->
  map ChatEntry.LineNumber (entries (trace (streamLines w lines)))
  = (map ChatEntry.LineNumber (entries (trace w))
     ++ map Z.of_nat (seq (S k) (List.length (nonblank lines))))%list
  /\ map ChatEntry.RawLine (entries (trace (streamLines w lines)))
     = (map ChatEntry.RawLine (entries (trace w))
        ++ map (fun l => TrimSpace (fst l)) (nonblank lines))%list
  /\ staticLineNum (streamLines w lines)
     = Z.of_nat (k + List.length (nonblank lines)).
Proof.
  revert w k. induction lines as [|[line now] rest IH]; intros w k Hk Hb.
  - simpl. rewrite !app_nil_r, Nat.add_0_r. auto.
  - cbn [streamLines]. unfold nonblank in *. cbn [filter fst] in *.
    destruct (nonEmpty (TrimSpace line)) eqn:Hn.
    + apply nonEmpty_true in Hn.
      destruct (parseLine_entry (staticLineNum w) line now Hn)
        as (entry & P & Hl & Hr & _).
      assert (Hw : wrap_int (staticLineNum w + 1) = Z.of_nat (S k)).
      { rewrite Hk. cbn [List.length] in Hb.
        rewrite wrap_int_small; lia. }
      cbn [List.length] in Hb |- *.
      destruct (IH (handleLine w line now) (S k)) as (I1 & I2 & I3).
      { now rewrite handleLine_counter, P. }
      { rewrite <- Nat.add_succ_comm in Hb. exact Hb. }
      rewrite I1, I2, I3, handleLine_entries, P. cbn [fst].
      rewrite !map_app, <- !app_assoc. cbn [map app seq].
      rewrite Hl, Hw, Hr. repeat split. f_equal. lia.
    + apply nonEmpty_false in Hn.
      pose proof (parseLine_blank (staticLineNum w) line now Hn) as P.
      destruct (IH (handleLine w line now) k) as (I1 & I2 & I3).
      { now rewrite handleLine_counter, P. }
      { exact Hb. }
      rewrite I1, I2, I3, handleLine_entries, P. cbn [fst].
      rewrite !app_nil_r. auto.
Qed.

(** The loop with capture against the plain loop: the same events apart
    from the file writes. *)
Lemma streamLinesWithFile_others (lines : list (string * Z))
  (w w0 : World) :
  staticLineNum w = staticLineNum w0 ->
  others (trace w) = others (trace w0) ->
  others (trace (streamLinesWithFile w lines))
  = others (trace (streamLines w0 lines))
  /\ staticLineNum (streamLinesWithFile w lines)
     = staticLineNum (streamLines w0 lines).
Proof.
  revert w w0. induction lines as [|[line now] rest IH]; intros w w0 Hn Ho.
  - now split.
  - cbn [streamLinesWithFile streamLines]. apply IH.
    + rewrite !handleLine_counter. cbn [emit staticLineNum]. now rewrite Hn.
    + rewrite !handleLine_trace. cbn [emit trace staticLineNum].
      rewrite !others_app. cbn [others filter isFileWrite negb].
      rewrite app_nil_r, Ho, Hn. do 3 f_equal.
      rewrite <- (commands_others (trace w ++ _)), others_app, Ho.
      cbn [others filter isFileWrite negb]. rewrite app_nil_r.
      now rewrite commands_others.
Qed.

Lemma streamLines_captured (lines : list (string * Z)) (w : World) :
  captured (trace (streamLines w lines)) = captured (trace w).
Proof.
  revert w. induction lines as [|[line now] rest IH]; intros w;
    [reflexivity|].
  cbn [streamLines]. rewrite IH.
  destruct (handleLine_extends w line now) as (tail & -> & Hc & _).
  now rewrite captured_app, Hc, app_nil_r.
Qed.

Lemma streamLinesWithFile_captured (lines : list (string * Z)) (w : World) :
  captured (trace (streamLinesWithFile w lines))
  = (captured (trace w) ++ map (fun l => (fst l ++ nl)%string) lines)%list.
Proof.
  revert w. induction lines as [|[line now] rest IH]; intros w.
  - simpl. now rewrite app_nil_r.
  - cbn [streamLinesWithFile]. rewrite IH.
    destruct (handleLine_extends (emit w (FileWrite (line ++ nl))) line now)
      as (tail & -> & Hc & _).
    cbn [emit trace]. rewrite !captured_app, Hc.
    cbn [captured flat_map map fst app].
    now rewrite !app_nil_r, <- app_assoc.
Qed.

Lemma streamLinesWithFile_extends (lines : list (string * Z)) (w : World) :
  exists tail,
    trace (streamLinesWithFile w lines) = (trace w ++ tail)%list.
Proof.
  revert w. induction lines as [|[line now] rest IH]; intros w.
  - exists []. simpl. now rewrite app_nil_r.
  - cbn [streamLinesWithFile].
    destruct (IH (handleLine (emit w (FileWrite (line ++ nl))) line now))
      as (tail & ->).
    destruct (handleLine_extends (emit w (FileWrite (line ++ nl))) line now)
      as (tail' & -> & _).
    cbn [emit trace]. rewrite <- !app_assoc. eexists. reflexivity.
Qed.

Lemma checkScannerErr_others (w w0 : World) (scanner : Scanner.t) :
  others (trace w) = others (trace w0) ->
  others (trace (checkScannerErr w scanner))
  = others (trace (checkScannerErr w0 scanner)).
Proof.
  intros H. unfold checkScannerErr.
  destruct (Scanner.Err scanner); [|exact H].
  cbn [emit trace]. now rewrite !others_app, H.
Qed.

Lemma checkScannerErr_facts (w : World) (scanner : Scanner.t) :
  let w' := checkScannerErr w scanner in
  staticLineNum w' = staticLineNum w /\
  entries (trace w') = entries (trace w) /\
  printed (trace w') = printed (trace w) /\
  commands (trace w') = commands (trace w) /\
  captured (trace w') = captured (trace w) /\
  warnings (trace w') = warnings (trace w) /\
  failed (trace w') = failed (trace w) /\
  fatals (trace w')
  = (fatals (trace w)
     ++ match Scanner.Err scanner with
        | Some err => [("Error reading input: " ++ err)%string]
        | None => []
        end)%list.
Proof.
  unfold checkScannerErr. destruct (Scanner.Err scanner); cbv zeta.
  - cbn [emit trace staticLineNum].
    rewrite entries_app, printed_app, commands_app, captured_app,
      warnings_app, failed_app, fatals_app.
    cbn. rewrite !app_nil_r. repeat split.
  - rewrite app_nil_r. repeat split.
Qed.

End Runs.

Section RunClaims.

Context {Str : Strings} {V : Type} {J : JSON V} {O : OS}.

Lemma withFile_others (scanner : Scanner.t) (outputFilename : string)
  (w : World) :
  Create outputFilename = None ->
  others (trace (parseAndStreamOutputWithFile w scanner outputFilename))
  = others (trace (parseAndStreamOutput w scanner))
  /\ staticLineNum (parseAndStreamOutputWithFile w scanner outputFilename)
     = staticLineNum (parseAndStreamOutput w scanner).
Proof.
  intros C. unfold parseAndStreamOutputWithFile, parseAndStreamOutput.
  rewrite C.
  destruct (streamLinesWithFile_others (Scanner.lines scanner) w w
              eq_refl eq_refl) as [Ho Hn].
  split; [now apply checkScannerErr_others|].
  destruct (checkScannerErr_facts
              (streamLinesWithFile w (Scanner.lines scanner)) scanner)
    as (-> & _).
  destruct (checkScannerErr_facts
              (streamLines w (Scanner.lines scanner)) scanner)
    as (-> & _).
  exact Hn.
Qed.

(** C6.  On any input with fewer than 2^63 non-blank lines (the range of
    the Go [int] counter), the entries are one per input line that is
    non-blank after trimming, in order, and their line numbers are
    1, 2, 3, ... whether or not the line is valid JSON, with or without
    capture; a line that is empty after trimming yields no entry and
    leaves the counter as it was. *)
Theorem line_numbers_count_nonblank_lines (scanner : Scanner.t) :
  (Z.of_nat (List.length (nonblank (Scanner.lines scanner))) < 2 ^ 63)%Z ->
  map ChatEntry.LineNumber
    (entries (trace (parseAndStreamOutput initial scanner)))
  = map Z.of_nat (seq 1 (List.length (nonblank (Scanner.lines scanner))))
  /\ map ChatEntry.RawLine
       (entries (trace (parseAndStreamOutput initial scanner)))
     = map (fun l => TrimSpace (fst l)) (nonblank (Scanner.lines scanner))
  /\ (forall outputFilename,
        Create outputFilename = None ->
        entries (trace (parseAndStreamOutputWithFile initial scanner
                          outputFilename))
        = entries (trace (parseAndStreamOutput initial scanner)))
  /\ (forall n line now,
        TrimSpace line = EmptyString -> parseLine n line now = (None, n)).
Proof.
  intros Hb.
  destruct (streamLines_numbers (Scanner.lines scanner) initial 0
              eq_refl Hb) as (H1 & H2 & _).
  unfold parseAndStreamOutput.
  destruct (checkScannerErr_facts
              (streamLines initial (Scanner.lines scanner)) scanner)
    as (_ & He & _).
  cbv zeta in He. rewrite He, H1, H2.
  split; [reflexivity|]. split; [reflexivity|].
  split; [|apply parseLine_blank].
  intros f C. destruct (withFile_others scanner f initial C) as [Ho _].
  rewrite <- entries_others, Ho, entries_others.
  unfold parseAndStreamOutput. now rewrite He.
Qed.

(** C8.  With capture enabled (the file could be created), the capture
    file receives every line the scanner yields, blank or not, once each
    and in order, each followed by a line feed, and the write is the first
    thing done for a line; every other effect of the run (entries, printed
    chunks, annotation commands with their outcomes, warnings, the fatal
    error of the scanner) and the final counter are those of the run
    without capture, which writes nothing to a file. *)
Theorem capture_is_a_pure_tee (scanner : Scanner.t)
  (outputFilename : string) :
  Create outputFilename = None ->
  captured (trace (parseAndStreamOutputWithFile initial scanner
                     outputFilename))
  = map (fun l => (fst l ++ nl)%string) (Scanner.lines scanner)
  /\ others (trace (parseAndStreamOutputWithFile initial scanner
                      outputFilename))
     = others (trace (parseAndStreamOutput initial scanner))
  /\ captured (trace (parseAndStreamOutput initial scanner)) = []
  /\ staticLineNum (parseAndStreamOutputWithFile initial scanner
                      outputFilename)
     = staticLineNum (parseAndStreamOutput initial scanner)
  /\ entries (trace (parseAndStreamOutputWithFile initial scanner
                       outputFilename))
     = entries (trace (parseAndStreamOutput initial scanner))
  /\ printed (trace (parseAndStreamOutputWithFile initial scanner
                       outputFilename))
     = printed (trace (parseAndStreamOutput initial scanner))
  /\ commands (trace (parseAndStreamOutputWithFile initial scanner
                        outputFilename))
     = commands (trace (parseAndStreamOutput initial scanner))
  /\ (forall w line now rest,
        exists tail,
          trace (streamLinesWithFile w ((line, now) :: rest))
          = (trace w ++ FileWrite (line ++ nl) :: tail)%list).
Proof.
  intros C. destruct (withFile_others scanner outputFilename initial C)
    as [Ho Hn].
  split.
  { unfold parseAndStreamOutputWithFile. rewrite C.
    destruct (checkScannerErr_facts
                (streamLinesWithFile initial (Scanner.lines scanner))
                scanner) as (_ & _ & _ & _ & -> & _).
    now rewrite streamLinesWithFile_captured. }
  split; [exact Ho|].
  split.
  { unfold parseAndStreamOutput.
    destruct (checkScannerErr_facts
                (streamLines initial (Scanner.lines scanner)) scanner)
      as (_ & _ & _ & _ & -> & _).
    now rewrite streamLines_captured. }
  split; [exact Hn|].
  split; [now rewrite <- entries_others, Ho, entries_others|].
  split; [now rewrite <- printed_others, Ho, printed_others|].
  split; [now rewrite <- commands_others, Ho, commands_others|].
  intros w line now rest. cbn [streamLinesWithFile].
  destruct (streamLinesWithFile_extends rest
              (handleLine (emit w (FileWrite (line ++ nl))) line now))
    as (tail & ->).
  destruct (handleLine_extends (emit w (FileWrite (line ++ nl))) line now)
    as (tail' & -> & _).
  cbn [emit trace]. rewrite <- !app_assoc. eexists. reflexivity.
Qed.

Lemma streamLines_warnings (lines : list (string * Z)) (w : World) :
  warnings (trace w)
  = map (fun e => "Warning: Failed to create Buildkite annotation: " ++ e)
      (failed (trace w)) ->
  warnings (trace (streamLines w lines))
  = map (fun e => "Warning: Failed to create Buildkite annotation: " ++ e)
      (failed (trace (streamLines w lines))).
Proof.
  revert w. induction lines as [|[line now] rest IH]; intros w H;
    [exact H|].
  cbn [streamLines]. apply IH.
  destruct (handleLine_extends w line now) as (tail & -> & _ & _ & Hw).
  now rewrite warnings_app, failed_app, map_app, H, Hw.
Qed.

Lemma streamLines_fatals (lines : list (string * Z)) (w : World) :
  fatals (trace (streamLines w lines)) = fatals (trace w).
Proof.
  revert w. induction lines as [|[line now] rest IH]; intros w;
    [reflexivity|].
  cbn [streamLines]. now rewrite IH, handleLine_fatals.
Qed.

End RunClaims.

(** The plain loop under two behaviours of the annotation sink. *)
Lemma streamLines_sinks (Str : Strings) (V : Type) (J : JSON V)
  (O1 O2 : OS) (lines : list (string * Z)) (w1 w2 : World) :
  staticLineNum w1 = staticLineNum w2 ->
  printed (trace w1) = printed (trace w2) ->
  entries (trace w1) = entries (trace w2) ->
  commands (trace w1) = commands (trace w2) ->
  fatals (trace w1) = fatals (trace w2) ->
  staticLineNum (@streamLines Str V J O1 w1 lines)
  = staticLineNum (@streamLines Str V J O2 w2 lines)
  /\ printed (trace (@streamLines Str V J O1 w1 lines))
     = printed (trace (@streamLines Str V J O2 w2 lines))
  /\ entries (trace (@streamLines Str V J O1 w1 lines))
     = entries (trace (@streamLines Str V J O2 w2 lines))
  /\ commands (trace (@streamLines Str V J O1 w1 lines))
     = commands (trace (@streamLines Str V J O2 w2 lines))
  /\ fatals (trace (@streamLines Str V J O1 w1 lines))
     = fatals (trace (@streamLines Str V J O2 w2 lines)).
Proof.
  revert w1 w2.
  induction lines as [|[line now] rest IH]; intros w1 w2 Hn Hp He Hc Hf.
  - now repeat split.
  - cbn [streamLines]. apply IH.
    + now rewrite !handleLine_counter, Hn.
    + now rewrite !handleLine_printed, Hn, Hp.
    + now rewrite !handleLine_entries, Hn, He.
    + now rewrite !handleLine_commands, Hn, Hc.
    + now rewrite !handleLine_fatals, Hf.
Qed.

(** C9.  Take any two behaviours of the operating system, for instance one
    where every delivery to the annotation sink fails and one where none
    does.  The two runs on the same input print the same transcript, build
    the same entries, attempt the same annotation commands in the same
    order and end with the same counter, also with capture enabled; a
    failed delivery leaves exactly one warning in the log, and the only
    fatal error a run can end with is the scanner's. *)
Theorem sink_failure_never_alters_the_run (Str : Strings) (V : Type)
  (J : JSON V) (O1 O2 : OS) (scanner : Scanner.t) :
  printed (trace (@parseAndStreamOutput Str V J O1 initial scanner))
  = printed (trace (@parseAndStreamOutput Str V J O2 initial scanner))
  /\ entries (trace (@parseAndStreamOutput Str V J O1 initial scanner))
     = entries (trace (@parseAndStreamOutput Str V J O2 initial scanner))
  /\ commands (trace (@parseAndStreamOutput Str V J O1 initial scanner))
     = commands (trace (@parseAndStreamOutput Str V J O2 initial scanner))
  /\ staticLineNum (@parseAndStreamOutput Str V J O1 initial scanner)
     = staticLineNum (@parseAndStreamOutput Str V J O2 initial scanner)
  /\ warnings (trace (@parseAndStreamOutput Str V J O1 initial scanner))
     = map (fun e =>
              "Warning: Failed to create Buildkite annotation: " ++ e)
         (failed (trace (@parseAndStreamOutput Str V J O1 initial scanner)))
  /\ fatals (trace (@parseAndStreamOutput Str V J O1 initial scanner))
     = match Scanner.Err scanner with
       | Some err => [("Error reading input: " ++ err)%string]
       | None => []
       end
  /\ (forall outputFilename,
        @Create O1 outputFilename = None ->
        @Create O2 outputFilename = None ->
        printed (trace (@parseAndStreamOutputWithFile Str V J O1 initial
                          scanner outputFilename))
        = printed (trace (@parseAndStreamOutputWithFile Str V J O2 initial
                            scanner outputFilename))
        /\ commands (trace (@parseAndStreamOutputWithFile Str V J O1 initial
                              scanner outputFilename))
           = commands (trace (@parseAndStreamOutputWithFile Str V J O2
                                initial scanner outputFilename))
        /\ captured (trace (@parseAndStreamOutputWithFile Str V J O1 initial
                              scanner outputFilename))
           = captured (trace (@parseAndStreamOutputWithFile Str V J O2
                                initial scanner outputFilename))).
Proof.
  destruct (streamLines_sinks Str V J O1 O2 (Scanner.lines scanner)
              initial initial eq_refl eq_refl eq_refl eq_refl eq_refl)
    as (Hn & Hp & He & Hc & Hf).
  pose proof (@checkScannerErr_facts
                (@streamLines Str V J O1 initial (Scanner.lines scanner))
                scanner) as F1.
  pose proof (@checkScannerErr_facts
                (@streamLines Str V J O2 initial (Scanner.lines scanner))
                scanner) as F2.
  cbv zeta in F1, F2.
  destruct F1 as (N1 & E1 & P1 & C1 & _ & W1 & X1 & T1).
  destruct F2 as (N2 & E2 & P2 & C2 & _ & _ & _ & _).
  assert (A : printed (trace (@parseAndStreamOutput Str V J O1 initial
                                scanner))
              = printed (trace (@parseAndStreamOutput Str V J O2 initial
                                  scanner))
              /\ commands (trace (@parseAndStreamOutput Str V J O1 initial
                                    scanner))
                 = commands (trace (@parseAndStreamOutput Str V J O2 initial
                                      scanner))).
  { unfold parseAndStreamOutput. now rewrite P1, P2, C1, C2, Hp, Hc. }
  destruct A as [Ap Ac].
  split; [exact Ap|].
  split; [unfold parseAndStreamOutput; now rewrite E1, E2, He|].
  split; [exact Ac|].
  split; [unfold parseAndStreamOutput; now rewrite N1, N2, Hn|].
  split.
  { unfold parseAndStreamOutput. rewrite W1, X1.
    now apply (@streamLines_warnings Str V J O1). }
  split.
  { unfold parseAndStreamOutput. rewrite T1.
    assert (Z0 : fatals (trace (@streamLines Str V J O1 initial
                                  (Scanner.lines scanner))) = [])
      by (now rewrite streamLines_fatals).
    now rewrite Z0. }
  intros f K1 K2.
  destruct (@withFile_others Str V J O1 scanner f initial K1) as [Q1 _].
  destruct (@withFile_others Str V J O2 scanner f initial K2) as [Q2 _].
  split; [now rewrite <- printed_others, Q1, printed_others, Ap,
            <- printed_others, <- Q2, printed_others|].
  split; [now rewrite <- commands_others, Q1, commands_others, Ac,
            <- commands_others, <- Q2, commands_others|].
  unfold parseAndStreamOutputWithFile. rewrite K1, K2.
  destruct (@checkScannerErr_facts
              (@streamLinesWithFile Str V J O1 initial
                 (Scanner.lines scanner)) scanner)
    as (_ & _ & _ & _ & -> & _).
  destruct (@checkScannerErr_facts
              (@streamLinesWithFile Str V J O2 initial
                 (Scanner.lines scanner)) scanner)
    as (_ & _ & _ & _ & -> & _).
  now rewrite !streamLinesWithFile_captured.
Qed.

(** ** The claims on a concrete stream *)

(** C6 on [sampleScanner], every annotation failing. *)
Lemma line_numbers_witness :
  map ChatEntry.LineNumber
    (entries (trace (@parseAndStreamOutput asciiStrings nat sampleJSON
                       agentDown initial sampleScanner)))
  = [1%Z; 2%Z]
  /\ map ChatEntry.RawLine
       (entries (trace (@parseAndStreamOutput asciiStrings nat sampleJSON
                          agentDown initial sampleScanner)))
     = ["hello"; json_lit "{'type':'result'}"].
Proof.
  destruct (@line_numbers_count_nonblank_lines asciiStrings nat sampleJSON
              agentDown sampleScanner) as (H1 & H2 & _).
  - vm_compute. reflexivity.
  - split; [exact H1 | exact H2].
Defined.

(** C8 on [sampleScanner], captured to [raw.jsonl]. *)
Lemma capture_witness :
  captured (trace (@parseAndStreamOutputWithFile asciiStrings nat sampleJSON
                     agentUp initial sampleScanner "raw.jsonl"))
  = [lit "hello\n"; lit "   \n"; json_lit (lit "{'type':'result'}\n")]
  /\ printed (trace (@parseAndStreamOutputWithFile asciiStrings nat
                       sampleJSON agentUp initial sampleScanner "raw.jsonl"))
     = printed (trace (@parseAndStreamOutput asciiStrings nat sampleJSON
                         agentUp initial sampleScanner)).
Proof.
  destruct (@capture_is_a_pure_tee asciiStrings nat sampleJSON agentUp
              sampleScanner "raw.jsonl")
    as (H1 & _ & _ & _ & _ & H2 & _).
  - reflexivity.
  - split; [exact H1 | exact H2].
Defined.

(** * More of the program *)

(** ** [formatRelativeTime] *)

Lemma repeat_char_length (c : ascii) (n : nat) :
  String.length (repeat_char c n) = n.
Proof. induction n as [|n IH]; simpl; [reflexivity | now rewrite IH]. Qed.

Lemma fmt_0d_min_length (width : nat) (z : Z) :
  (0 <= z)%Z -> (width <= String.length (fmt_0d width z))%nat.
Proof.
  intros H. unfold fmt_0d.
  replace (z <? 0)%Z with false by (symmetry; apply Z.ltb_ge; exact H).
  rewrite length_append, repeat_char_length. lia.
Qed.

Lemma below_sixty (P : nat -> bool) :
  forallb P (seq 0 60) = true ->
  forall z, (0 <= z < 60)%Z -> P (Z.to_nat z) = true.
Proof.
  intros H z Hz. rewrite forallb_forall in H. apply H.
  apply in_seq. lia.
Qed.

Lemma fmt_02d_length (z : Z) :
  (0 <= z < 60)%Z -> String.length (fmt_0d 2 z) = 2%nat.
Proof.
  intros Hz.
  pose proof (below_sixty
                (fun n => (String.length (fmt_0d 2 (Z.of_nat n)) =? 2)%nat)
                eq_refl z Hz) as H.
  cbv beta in H. rewrite Z2Nat.id in H by lia. now apply Nat.eqb_eq.
Qed.

Lemma fmt_02d_inj (a b : Z) :
  (0 <= a < 60)%Z -> (0 <= b < 60)%Z ->
  fmt_0d 2 a = fmt_0d 2 b -> a = b.
Proof.
  intros Ha Hb E.
  assert (T : forallb
                (fun n =>
                   forallb
                     (fun m =>
                        negb (fmt_0d 2 (Z.of_nat n) =? fmt_0d 2 (Z.of_nat m))
                        || (n =? m)%nat)
                     (seq 0 60))
                (seq 0 60) = true) by (vm_compute; reflexivity).
  pose proof (below_sixty _ T a Ha) as Ta. cbv beta in Ta.
  rewrite forallb_forall in Ta.
  specialize (Ta (Z.to_nat b)).
  rewrite !Z2Nat.id in Ta by lia.
  rewrite E, String.eqb_refl in Ta. simpl in Ta.
  assert (I : In (Z.to_nat b) (seq 0 60)) by (apply in_seq; lia).
  apply Ta, Nat.eqb_eq in I. lia.
Qed.

(** Two strings of equal length followed by anything are equal as soon as
    the wholes are. *)
Lemma append_same_length (a b c d : string) :
  String.length a = String.length b -> a ++ c = b ++ d -> a = b /\ c = d.
Proof.
  revert b. induction a as [|x a IH]; intros [|y b] L E; simpl in *;
    try discriminate.
  - now split.
  - injection E as -> E. injection L as L.
    destruct (IH b L E) as [-> ->]. now split.
Qed.

(** X1.  For an elapsed time of [t >= 0] seconds the stamp is [MM:SS],
    five bytes, while [t] is under an hour, and [HH:MM:SS], at least eight
    bytes, from one hour on; the minute and second fields are always two
    digits.  Under an hour the stamp determines [t]. *)
Theorem formatRelativeTime_shape (t : Z) :
  (0 <= t)%Z ->
  ((t < 3600)%Z ->
   formatRelativeTime t
   = fmt_0d 2 (t / 60) ++ ":" ++ fmt_0d 2 (t mod 60) /\
   String.length (formatRelativeTime t) = 5%nat)
  /\ ((3600 <= t)%Z ->
      formatRelativeTime t
      = fmt_0d 2 (t / 3600) ++ ":" ++ fmt_0d 2 (t mod 3600 / 60) ++ ":"
          ++ fmt_0d 2 (t mod 60) /\
      (8 <= String.length (formatRelativeTime t))%nat)
  /\ String.length (fmt_0d 2 (t mod 3600 / 60)) = 2%nat
  /\ String.length (fmt_0d 2 (t mod 60)) = 2%nat
  /\ (forall t' : Z,
        (0 <= t' < 3600)%Z -> (t < 3600)%Z ->
        formatRelativeTime t = formatRelativeTime t' -> t = t').
Proof.
  intros H0.
  assert (Q : forall u, (0 <= u)%Z ->
              Z.quot u 3600 = (u / 3600)%Z /\
              Z.quot (Z.rem u 3600) 60 = (u mod 3600 / 60)%Z /\
              Z.rem u 60 = (u mod 60)%Z).
  { intros u Hu.
    rewrite Z.quot_div_nonneg, !Z.rem_mod_nonneg by lia.
    rewrite Z.quot_div_nonneg by (try apply Z.mod_pos_bound; lia).
    auto. }
  assert (M : forall u, (0 <= u)%Z -> (0 <= u mod 3600 / 60 < 60)%Z).
  { intros u Hu. pose proof (Z.mod_pos_bound u 3600 ltac:(lia)).
    split; [apply Z.div_pos; lia | apply Z.div_lt_upper_bound; lia]. }
  assert (Sx : forall u, (0 <= u < 3600)%Z ->
               formatRelativeTime u
               = fmt_0d 2 (u / 60) ++ ":" ++ fmt_0d 2 (u mod 60)).
  { intros u Hu. unfold formatRelativeTime.
    destruct (Q u) as (-> & -> & ->); [lia|].
    rewrite Z.div_small, Z.mod_small by lia. reflexivity. }
  pose proof (Z.mod_pos_bound t 60 ltac:(lia)) as Hs.
  split; [|split; [|split; [|split]]].
  - intros Hlt. split; [apply Sx; lia|].
    rewrite Sx by lia. rewrite !length_append, !fmt_02d_length; try lia.
    + reflexivity.
    + split; [apply Z.div_pos; lia | apply Z.div_lt_upper_bound; lia].
  - intros Hge. unfold formatRelativeTime.
    destruct (Q t H0) as (-> & -> & ->).
    assert (Hh : (0 < t / 3600)%Z)
      by (apply Z.div_str_pos; lia).
    replace (0 <? t / 3600)%Z with true
      by (symmetry; apply Z.ltb_lt; exact Hh).
    split; [reflexivity|].
    rewrite !length_append, (fmt_02d_length (t mod 3600 / 60)),
      (fmt_02d_length (t mod 60)) by (try apply M; lia).
    pose proof (fmt_0d_min_length 2 (t / 3600) ltac:(lia)). simpl. lia.
  - apply fmt_02d_length, M, H0.
  - apply fmt_02d_length. lia.
  - intros t' Ht' Hlt E. rewrite !Sx in E by lia.
    assert (B : forall u, (0 <= u < 3600)%Z -> (0 <= u / 60 < 60)%Z).
    { intros u Hu.
      split; [apply Z.div_pos; lia | apply Z.div_lt_upper_bound; lia]. }
    apply append_same_length in E;
      [|rewrite !fmt_02d_length; try apply B; lia].
    destruct E as [Em Es]. injection Es as Es.
    apply fmt_02d_inj in Em; [|apply B; lia|apply B; lia].
    apply fmt_02d_inj in Es;
      [|lia|apply Z.mod_pos_bound; lia].
    rewrite (Z.div_mod t 60), (Z.div_mod t' 60) by lia. lia.
Qed.

(** X1 at 59 minutes 59 seconds. *)
Lemma formatRelativeTime_witness :
  formatRelativeTime 3599 = "59:59"
  /\ String.length (formatRelativeTime 3599) = 5%nat.
Proof.
  destruct (formatRelativeTime_shape 3599) as (H & _).
  - lia.
  - destruct H as [H1 H2]; [lia|]. split; [exact H1 | exact H2].
Defined.

(** ** The annotation command *)

(** [%d] writes different numbers differently. *)
Lemma fmt_d_inj (a b : Z) : fmt_d a = fmt_d b -> a = b.
Proof.
  unfold fmt_d. intros E.
  assert (P : forall z, NilZero.int_of_string
                          (NilZero.string_of_int (Z.to_int z))
                        = Some (Z.to_int z)).
  { intros z. apply NilZero.isi; destruct z; simpl; try discriminate;
      intros [= H]; now apply DecimalPos.Unsigned.to_uint_nonnil in H. }
  apply (f_equal NilZero.int_of_string) in E. rewrite !P in E.
  injection E as E. now apply DecimalZ.to_int_inj.
Qed.

Section AnnotationCommand.

Context {Str : Strings} {V : Type} {J : JSON V} {O : OS}.

(** Where a classified annotation content comes from. *)
Lemma annotationContent_cases (raw speaker content : string)
  (hasError : bool) :
  annotationContent raw = Some (speaker, content, hasError) ->
  (speaker = "SYSTEM" /\ hasError = false /\ content = raw /\
   (HasPrefix_brace raw = false \/ Unmarshal_Message raw = None))
  \/ exists msg,
       HasPrefix_brace raw = true /\
       Unmarshal_Message raw = Some msg /\
       extractCleanJSONContentWithErrorCheck msg
       = (speaker, content, hasError) /\
       ((Message.Type_ msg = "system" /\ speaker = "SYSTEM" /\
         hasError = false)
        \/ (Message.Type_ msg = "assistant" /\ speaker = "ASSISTANT" /\
            hasError = false)
        \/ (Message.Type_ msg = "user" /\ speaker = "USER")).
Proof.
  unfold annotationContent.
  destruct (HasPrefix_brace raw) eqn:Hp.
  2:{ intros [= <- <- <-]. left. auto. }
  destruct (Unmarshal_Message raw) as [msg|] eqn:Hm.
  2:{ intros [= <- <- <-]. left. auto. }
  destruct (extractCleanJSONContentWithErrorCheck msg)
    as [[sp co] he] eqn:X.
  destruct (co =? "Unknown message type") eqn:Hs; [discriminate|].
  intros [= <- <- <-]. right. exists msg.
  split; [reflexivity|]. split; [reflexivity|]. split; [exact X|].
  revert X Hs. unfold extractCleanJSONContentWithErrorCheck.
  destruct (String.eqb_spec (Message.Type_ msg) "system") as [Es|_].
  { destruct (Message.Subtype msg =? "init"); intros [= <- <- <-] _;
      left; auto. }
  destruct (String.eqb_spec (Message.Type_ msg) "assistant") as [Ea|_].
  { intros [= <- <- <-] _. right. left. auto. }
  destruct (String.eqb_spec (Message.Type_ msg) "user") as [Eu|_].
  { destruct (if (0 <? List.length (Body.Content (Message.Message msg)))%nat
              then _ else _) as [c e].
    intros [= <- <- <-] _. right. right. auto. }
  intros [= <- <- <-] Hs. discriminate Hs.
Qed.

Lemma annotationCommand_shape (line : string) (lineNumber : Z)
  (timestamp : string) (cmd : Cmd.t) :
  annotationCommand line lineNumber timestamp = Some cmd ->
  exists speaker content hasError,
    annotationContent (TrimSpace line) = Some (speaker, content, hasError) /\
    Cmd.Path cmd = "buildkite-agent" /\
    Cmd.Args cmd
    = ["annotate"; "--style"; snd (speakerHeader speaker hasError);
       "--context"; "chat-message-" ++ fmt_d lineNumber;
       "--priority"; "5"] /\
    exists rest,
      Cmd.Stdin cmd
      = "**Message " ++ fmt_d lineNumber ++ "** - `" ++ timestamp
          ++ lit "`\n\n" ++ fst (speakerHeader speaker hasError) ++ rest.
Proof.
  unfold annotationCommand.
  destruct (TrimSpace line =? ""); [discriminate|].
  destruct (annotationContent (TrimSpace line)) as [[[sp co] he]|];
    [|discriminate].
  destruct (speakerHeader sp he) as [header style] eqn:Sh.
  intros [= <-]. exists sp, co, he. rewrite Sh.
  split; [reflexivity|]. split; [reflexivity|]. split; [reflexivity|].
  eexists. reflexivity.
Qed.

(** X2.  Every annotation command runs [buildkite-agent annotate] with a
    style, the context [chat-message-<line number>] and priority 5.  The
    style is "warning" for a line that is not decoded and for a system
    event, "info" for an assistant event, and for a user event "error" when
    the error flag is set and "success" otherwise.  The body opens with
    the title and one of the three speaker headers: the fallback header of
    lines 100-102 is never written. *)
Theorem annotation_style_follows_kind (line : string) (lineNumber : Z)
  (timestamp : string) (cmd : Cmd.t) :
  annotationCommand line lineNumber timestamp = Some cmd ->
  Cmd.Path cmd = "buildkite-agent"
  /\ Cmd.Args cmd
     = ["annotate"; "--style"; styleOf cmd;
        "--context"; "chat-message-" ++ fmt_d lineNumber;
        "--priority"; "5"]
  /\ (HasPrefix_brace (TrimSpace line) = false \/
      Unmarshal_Message (TrimSpace line) = None ->
      styleOf cmd = "warning")
  /\ (forall msg,
        HasPrefix_brace (TrimSpace line) = true ->
        Unmarshal_Message (TrimSpace line) = Some msg ->
        (Message.Type_ msg = "system" /\ styleOf cmd = "warning")
        \/ (Message.Type_ msg = "assistant" /\ styleOf cmd = "info")
        \/ (Message.Type_ msg = "user" /\
            styleOf cmd
            = if snd (extractCleanJSONContentWithErrorCheck msg)
              then "error" else "success"))
  /\ exists header rest,
       In header [lit "🤖 **ASSISTANT**:\n\n"; lit "👤 **USER**:\n\n";
                  lit "⚙️ **SYSTEM**:\n\n"] /\
       Cmd.Stdin cmd
       = "**Message " ++ fmt_d lineNumber ++ "** - `" ++ timestamp
           ++ lit "`\n\n" ++ header ++ rest.
Proof.
  intros H.
  destruct (annotationCommand_shape line lineNumber timestamp cmd H)
    as (sp & co & he & C & Hp & Ha & rest & Hs).
  assert (St : styleOf cmd = snd (speakerHeader sp he))
    by (unfold styleOf; now rewrite Ha).
  split; [exact Hp|]. split; [now rewrite St|].
  destruct (annotationContent_cases _ _ _ _ C)
    as [(-> & -> & _ & D) | (msg & Hb & Hm & X & K)].
  - split; [intros _; now rewrite St|].
    split.
    { intros msg Hb Hm. destruct D as [D|D]; congruence. }
    exists (lit "⚙️ **SYSTEM**:\n\n"), rest.
    split; [simpl; auto | exact Hs].
  - split; [intros [D|D]; congruence|].
    split.
    { intros msg' _ Hm'. rewrite Hm in Hm'. injection Hm' as <-.
      rewrite X. simpl snd.
      destruct K as [(Et & -> & ->) | [(Et & -> & ->) | (Et & ->)]].
      - left. split; [exact Et | now rewrite St].
      - right. left. split; [exact Et | now rewrite St].
      - right. right. split; [exact Et|]. rewrite St.
        now destruct he. }
    destruct K as [(_ & -> & ->) | [(_ & -> & ->) | (_ & ->)]].
    + exists (lit "⚙️ **SYSTEM**:\n\n"), rest.
      split; [simpl; auto | exact Hs].
    + exists (lit "🤖 **ASSISTANT**:\n\n"), rest.
      split; [simpl; auto | exact Hs].
    + exists (lit "👤 **USER**:\n\n"), rest.
      split; [simpl; auto | exact Hs].
Qed.

Lemma annotationCommand_context (line : string) (lineNumber : Z)
  (timestamp : string) (cmd : Cmd.t) :
  annotationCommand line lineNumber timestamp = Some cmd ->
  contextOf cmd = "chat-message-" ++ fmt_d lineNumber.
Proof.
  intros H.
  destruct (annotationCommand_shape line lineNumber timestamp cmd H)
    as (sp & co & he & _ & _ & Ha & _).
  unfold contextOf. now rewrite Ha.
Qed.

End AnnotationCommand.

(** X2 at the error of the sample stream. *)
Lemma annotation_style_witness :
  exists cmd,
    @annotationCommand asciiStrings nat sampleJSON
      (json_lit
         "{'type':'user','message':{'content':[{'type':'tool_result','is_error':true,'text':'boom'}]}}")
      4 "00:08" = Some cmd /\
    styleOf cmd = "error".
Proof.
  eexists. split; [vm_compute; reflexivity|].
  match goal with
  | |- styleOf ?c = _ =>
      destruct (@annotation_style_follows_kind asciiStrings nat sampleJSON
                  (json_lit
                     "{'type':'user','message':{'content':[{'type':'tool_result','is_error':true,'text':'boom'}]}}")
                  4 "00:08" c) as (_ & _ & _ & K & _)
  end.
  - vm_compute. reflexivity.
  - destruct (K (messageOf "user" [toolResult nat true "boom"]))
      as [(E & _) | [(E & _) | (_ & E)]].
    + reflexivity.
    + vm_compute. reflexivity.
    + discriminate E.
    + discriminate E.
    + exact E.
Defined.

(** ** Annotation contexts along a run *)

Lemma sorted_NoDup (ns : list Z) : Sorted.StronglySorted Z.lt ns -> NoDup ns.
Proof.
  induction 1 as [|n ns _ IH Hn]; constructor; [|exact IH].
  intros Hin. rewrite Forall_forall in Hn. specialize (Hn n Hin). lia.
Qed.

Lemma context_inj (a b : Z) :
  "chat-message-" ++ fmt_d a = "chat-message-" ++ fmt_d b -> a = b.
Proof. intros E. apply append_inv_head in E. now apply fmt_d_inj. Qed.

Section Contexts.

Context {Str : Strings} {V : Type} {J : JSON V} {O : OS}.

(** The contexts a run adds are those of increasing line numbers it has
    assigned. *)
Lemma streamLines_contexts (lines : list (string * Z)) (w : World)
  (k : nat) :
  staticLineNum w = Z.of_nat k ->
  (Z.of_nat (k + List.length (nonblank lines)) < 2 ^ 63)%Z ->
  exists ns,
    map contextOf (commands (trace (streamLines w lines)))
    = (map contextOf (commands (trace w))
       ++ map (fun n => ("chat-message-" ++ fmt_d n)%string) ns)%list /\
    Sorted.StronglySorted Z.lt ns /\
    Forall (fun n => (Z.of_nat k < n
                      <= Z.of_nat (k + List.length (nonblank lines)))%Z) ns.
Proof.
  revert w k. induction lines as [|[line now] rest IH]; intros w k Hk Hb.
  - exists []. simpl. rewrite app_nil_r. repeat constructor.
  - cbn [streamLines]. unfold nonblank in *. cbn [filter fst] in *.
    destruct (nonEmpty (TrimSpace line)) eqn:Hn.
    + apply nonEmpty_true in Hn.
      destruct (parseLine_entry (staticLineNum w) line now Hn)
        as (entry & P & Hl & _).
      cbn [List.length] in Hb |- *.
      assert (Hw : wrap_int (staticLineNum w + 1) = Z.of_nat (S k))
        by (rewrite Hk, wrap_int_small; lia).
      destruct (IH (handleLine w line now) (S k)) as (ns & E & Ss & Fr).
      { now rewrite handleLine_counter, P. }
      { rewrite <- Nat.add_succ_comm in Hb. exact Hb. }
      rewrite E, handleLine_commands, P. cbn [fst].
      destruct (annotationCommand line (ChatEntry.LineNumber entry)
                  (ChatEntry.Timestamp entry)) as [cmd|] eqn:A.
      * exists (Z.of_nat (S k) :: ns).
        apply annotationCommand_context in A. rewrite Hl, Hw in A.
        rewrite map_app, <- app_assoc. cbn [map app]. rewrite A.
        split; [reflexivity|]. split.
        { constructor; [exact Ss|]. eapply Forall_impl; [|exact Fr].
          cbv beta. intros; lia. }
        constructor; [lia|]. eapply Forall_impl; [|exact Fr].
        cbv beta. intros; lia.
      * exists ns. rewrite app_nil_r. split; [reflexivity|].
        split; [exact Ss|]. eapply Forall_impl; [|exact Fr].
        cbv beta. intros; lia.
    + apply nonEmpty_false in Hn.
      pose proof (parseLine_blank (staticLineNum w) line now Hn) as P.
      destruct (IH (handleLine w line now) k) as (ns & E & Ss & Fr).
      { now rewrite handleLine_counter, P. }
      { exact Hb. }
      exists ns. rewrite E, handleLine_commands, P. cbn [fst].
      rewrite app_nil_r. auto.
Qed.

Lemma streamLines_counts (lines : list (string * Z)) (w : World) :
  (List.length (commands (trace (streamLines w lines)))
   + List.length (entries (trace w))
   <= List.length (commands (trace w))
      + List.length (entries (trace (streamLines w lines))))%nat.
Proof.
  revert w. induction lines as [|[line now] rest IH]; intros w;
    [simpl; lia|].
  cbn [streamLines]. specialize (IH (handleLine w line now)).
  rewrite handleLine_commands, handleLine_entries in IH.
  destruct (fst (parseLine (staticLineNum w) line now)) as [entry|].
  - destruct (annotationCommand line (ChatEntry.LineNumber entry)
                (ChatEntry.Timestamp entry));
      rewrite !length_app in IH; simpl in IH; lia.
  - rewrite !app_nil_r in IH. exact IH.
Qed.

(** X3.  On any input with fewer than 2^63 non-blank lines, the contexts
    of the annotation commands of a run are pairwise different; each is
    [chat-message-<n>] for the line number [n] of an entry of the run; and
    there is at most one command per entry. *)
Theorem annotation_contexts_are_unique (scanner : Scanner.t) :
  (Z.of_nat (List.length (nonblank (Scanner.lines scanner))) < 2 ^ 63)%Z ->
  NoDup (map contextOf
           (commands (trace (parseAndStreamOutput initial scanner))))
  /\ (forall cmd,
        In cmd (commands (trace (parseAndStreamOutput initial scanner))) ->
        exists entry,
          In entry (entries (trace (parseAndStreamOutput initial scanner)))
          /\ contextOf cmd
             = "chat-message-" ++ fmt_d (ChatEntry.LineNumber entry))
  /\ (List.length (commands (trace (parseAndStreamOutput initial scanner)))
      <= List.length
           (entries (trace (parseAndStreamOutput initial scanner))))%nat.
Proof.
  intros Hb.
  destruct (streamLines_contexts (Scanner.lines scanner) initial 0
              eq_refl Hb) as (ns & E & Ss & Fr).
  destruct (streamLines_numbers (Scanner.lines scanner) initial 0
              eq_refl Hb) as (Hnum & _).
  unfold parseAndStreamOutput.
  destruct (checkScannerErr_facts
              (streamLines initial (Scanner.lines scanner)) scanner)
    as (_ & He & _ & Hc & _).
  cbv zeta in He, Hc. rewrite He, Hc. cbn [initial trace commands entries
    flat_map map app] in E, Hnum.
  split; [|split].
  - rewrite E. apply Finite.Injective_map_NoDup.
    + intros a b. apply context_inj.
    + now apply sorted_NoDup.
  - intros cmd Hin.
    apply (in_map contextOf) in Hin. rewrite E in Hin.
    apply in_map_iff in Hin. destruct Hin as (n & Hn & Hin).
    rewrite Forall_forall in Fr. specialize (Fr n Hin). cbn in Fr.
    assert (I : In n (map ChatEntry.LineNumber
                        (entries (trace (streamLines initial
                                           (Scanner.lines scanner)))))).
    { rewrite Hnum. apply in_map_iff. exists (Z.to_nat n).
      split; [lia|]. apply in_seq. lia. }
    apply in_map_iff in I. destruct I as (entry & El & Ein).
    exists entry. split; [exact Ein|]. now rewrite El.
  - pose proof (streamLines_counts (Scanner.lines scanner) initial) as L.
    simpl in L. lia.
Qed.

End Contexts.

(** X3 on [sampleScanner]: two entries, one annotation. *)
Lemma annotation_contexts_witness :
  map contextOf
    (commands (trace (@parseAndStreamOutput asciiStrings nat sampleJSON
                        agentUp initial sampleScanner)))
  = ["chat-message-1"]
  /\ NoDup (map contextOf
              (commands (trace (@parseAndStreamOutput asciiStrings nat
                                  sampleJSON agentUp initial
                                  sampleScanner)))).
Proof.
  destruct (@annotation_contexts_are_unique asciiStrings nat sampleJSON
              agentUp sampleScanner) as (H & _).
  - vm_compute. reflexivity.
  - split; [vm_compute; reflexivity | exact H].
Defined.

(** ** [main] *)

Section MainFacts.

Context {Str : Strings} {V : Type} {J : JSON V} {O : OS} {F : Files}.

Lemma streamLines_extends (lines : list (string * Z)) (w : World) :
  exists tail, trace (streamLines w lines) = (trace w ++ tail)%list.
Proof.
  revert w. induction lines as [|[line now] rest IH]; intros w.
  - exists []. simpl. now rewrite app_nil_r.
  - cbn [streamLines]. destruct (IH (handleLine w line now)) as (tail & ->).
    destruct (handleLine_extends w line now) as (tail' & -> & _).
    rewrite <- app_assoc. eexists. reflexivity.
Qed.

Lemma checkScannerErr_extends (w : World) (scanner : Scanner.t) :
  exists tail, trace (checkScannerErr w scanner) = (trace w ++ tail)%list.
Proof.
  unfold checkScannerErr. destruct (Scanner.Err scanner).
  - eexists. reflexivity.
  - exists []. now rewrite app_nil_r.
Qed.

(** Either loop only adds to the trace. *)
Lemma run_extends (w : World) (scanner : Scanner.t) (outputFile : string) :
  exists tail,
    trace (if nonEmpty outputFile
           then parseAndStreamOutputWithFile w scanner outputFile
           else parseAndStreamOutput w scanner)
    = (trace w ++ tail)%list.
Proof.
  destruct (nonEmpty outputFile).
  - unfold parseAndStreamOutputWithFile.
    destruct (Create outputFile); [eexists; reflexivity|].
    destruct (checkScannerErr_extends
                (streamLinesWithFile w (Scanner.lines scanner)) scanner)
      as (t1 & ->).
    destruct (streamLinesWithFile_extends (Scanner.lines scanner) w)
      as (t2 & ->).
    rewrite <- app_assoc. eexists. reflexivity.
  - unfold parseAndStreamOutput.
    destruct (checkScannerErr_extends
                (streamLines w (Scanner.lines scanner)) scanner)
      as (t1 & ->).
    destruct (streamLines_extends (Scanner.lines scanner) w) as (t2 & ->).
    rewrite <- app_assoc. eexists. reflexivity.
Qed.

(** X4.  [main] ends with status 0 or 1.  When it ends with status 1
    without a fatal error (a usage error: no argument, [-o] without a file
    name, a second input, no input, or [-o] with a file input) it has
    processed nothing: no entry, no annotation command, no capture.  When
    it ends with status 0 there was no fatal error and the transcript
    opens with the header line and an empty line. *)
Theorem main_exit_status (args : list string) :
  (snd (main args) = 0%Z \/ snd (main args) = 1%Z)
  /\ (snd (main args) = 1%Z ->
      fatals (trace (fst (main args))) = [] ->
      entries (trace (fst (main args))) = [] /\
      commands (trace (fst (main args))) = [] /\
      captured (trace (fst (main args))) = [])
  /\ (snd (main args) = 0%Z ->
      fatals (trace (fst (main args))) = [] /\
      exists rest,
        printed (trace (fst (main args)))
        = (ColorCyan ++ ColorBold ++ "=== Claude Code Chat Transcript ==="
             ++ ColorReset ++ nl)
          :: nl :: rest).
Proof.
  assert (U : forall l : list string,
            entries (trace (emitAll initial (map Stdout l))) = [] /\
            commands (trace (emitAll initial (map Stdout l))) = [] /\
            captured (trace (emitAll initial (map Stdout l))) = []).
  { intros l. cbn [emitAll initial trace app].
    now rewrite entries_Stdout, commands_Stdout, captured_Stdout. }
  unfold main. destruct args as [|a args].
  { cbn [fst snd]. split; [now right|]. split; [intros _ _; apply U|].
    discriminate. }
  destruct (parseArgs (a :: args) EmptyString EmptyString)
    as [outputFile inputSource|printed].
  2:{ cbn [fst snd]. split; [now right|]. split; [intros _ _; apply U|].
      discriminate. }
  destruct (inputSource =? "").
  { cbn [fst snd]. split; [now right|]. split; [intros _ _; apply U|].
    discriminate. }
  destruct (if inputSource =? "-" then inl Stdin else Open inputSource)
    as [scanner|err].
  2:{ cbn [fst snd]. split; [now right|]. split; [discriminate|].
      discriminate. }
  destruct (nonEmpty outputFile && negb (inputSource =? "-")).
  { cbn [fst snd]. split; [now right|].
    split; [intros _ _; repeat split|]. discriminate. }
  cbv zeta. cbn [fst snd].
  set (w0 := emitAll initial _).
  destruct (run_extends w0 scanner outputFile) as (tail & E).
  destruct (fatals (trace (if nonEmpty outputFile
                           then parseAndStreamOutputWithFile w0 scanner
                                  outputFile
                           else parseAndStreamOutput w0 scanner)))
    as [|f fs] eqn:Hf.
  - split; [now left|]. split; [discriminate|]. intros _.
    split; [reflexivity|]. rewrite E, printed_app.
    eexists. reflexivity.
  - split; [now right|]. split; [discriminate|]. discriminate.
Qed.

(** X5.  Whatever the arguments, the capture file receives nothing, or
    exactly the lines of standard input, each followed by a line feed:
    the lines of an input file are never captured. *)
Theorem capture_only_from_stdin (args : list string) :
  captured (trace (fst (main args))) = []
  \/ captured (trace (fst (main args)))
     = map (fun l => (fst l ++ nl)%string) (Scanner.lines Stdin).
Proof.
  unfold main. destruct args as [|a args].
  { left. cbn [fst emitAll initial trace app]. apply captured_Stdout. }
  destruct (parseArgs (a :: args) EmptyString EmptyString)
    as [outputFile inputSource|printed].
  2:{ left. cbn [fst emitAll initial trace app]. apply captured_Stdout. }
  destruct (inputSource =? "").
  { left. cbn [fst emitAll initial trace app]. apply captured_Stdout. }
  destruct (inputSource =? "-") eqn:Hs.
  - cbv zeta. cbn [negb andb]. rewrite andb_false_r. cbn [fst].
    destruct (nonEmpty outputFile).
    + unfold parseAndStreamOutputWithFile.
      destruct (Create outputFile); [left; reflexivity|]. right.
      destruct (checkScannerErr_facts
                  (streamLinesWithFile
                     (emitAll initial
                        [Stdout (ColorCyan ++ ColorBold
                                   ++ "=== Claude Code Chat Transcript ==="
                                   ++ ColorReset ++ nl); Stdout nl])
                     (Scanner.lines Stdin)) Stdin)
        as (_ & _ & _ & _ & -> & _).
      now rewrite streamLinesWithFile_captured.
    + left. unfold parseAndStreamOutput.
      destruct (checkScannerErr_facts
                  (streamLines
                     (emitAll initial
                        [Stdout (ColorCyan ++ ColorBold
                                   ++ "=== Claude Code Chat Transcript ==="
                                   ++ ColorReset ++ nl); Stdout nl])
                     (Scanner.lines Stdin)) Stdin)
        as (_ & _ & _ & _ & -> & _).
      now rewrite streamLines_captured.
  - left. destruct (Open inputSource) as [scanner|err]; [|reflexivity].
    cbv zeta. cbn [negb]. rewrite andb_true_r.
    destruct (nonEmpty outputFile); [reflexivity|]. cbn [fst].
    unfold parseAndStreamOutput.
    destruct (checkScannerErr_facts
                (streamLines
                   (emitAll initial
                      [Stdout (ColorCyan ++ ColorBold
                                 ++ "=== Claude Code Chat Transcript ==="
                                 ++ ColorReset ++ nl); Stdout nl])
                   (Scanner.lines scanner)) scanner)
      as (_ & _ & _ & _ & -> & _).
    now rewrite streamLines_captured.
Qed.

End MainFacts.

(** ** Lines of a string *)

Lemma countLF_append (a b : string) :
  countLF (a ++ b) = (countLF a + countLF b)%nat.
Proof.
  induction a as [|c a IH]; simpl; [reflexivity | rewrite IH; lia].
Qed.

(** [strings.Split(s, "\n")] has one piece more than [s] has line feeds. *)
Lemma Split_length (s : string) :
  List.length (Split s LF) = S (countLF s).
Proof.
  induction s as [|c s IH]; [reflexivity|].
  simpl. destruct (Ascii.eqb c LF); simpl; [now rewrite IH|].
  destruct (Split s LF); simpl in *; [discriminate | exact IH].
Qed.

(** No piece holds a line feed. *)
Lemma Split_pieces (s : string) :
  Forall (fun p => countLF p = 0%nat) (Split s LF).
Proof.
  induction s as [|c s IH]; [repeat constructor|].
  simpl. destruct (Ascii.eqb c LF) eqn:Ec.
  - constructor; [reflexivity | exact IH].
  - destruct (Split s LF) as [|p ps]; [repeat constructor; simpl;
                                        now rewrite Ec|].
    inversion IH as [|? ? Hp Hps]; subst. constructor; [|exact Hps].
    simpl. now rewrite Ec, Hp.
Qed.

Lemma Join_two_or_more_has_LF (a b : string) (l : list string)
  (sep : string) :
  (countLF sep <= countLF (Join (a :: b :: l) sep))%nat.
Proof.
  rewrite Join_cons by discriminate. rewrite !countLF_append. lia.
Qed.

(** ** [printSingleEntry] *)

Section Printing.

Context {Str : Strings}.



End Printing.


(** ** The two classifiers agree on what is empty and what is unknown *)

Lemma Join_without_LF (l : list string) (sep x : string) :
  (1 <= countLF sep)%nat -> countLF x = 0%nat -> x <> EmptyString ->
  Join l sep = x -> l = [x].
Proof.
  intros Hsep Hx Hne E. destruct l as [|a [|b l]].
  - simpl in E. congruence.
  - simpl in E. now subst.
  - exfalso. pose proof (Join_two_or_more_has_LF a b l sep) as L.
    rewrite E in L. lia.
Qed.

Lemma describeToolInput_prefix (toolDesc toolInput : string) :
  exists rest, describeToolInput toolDesc toolInput = toolDesc ++ rest.
Proof.
  unfold describeToolInput.
  destruct (nonEmpty toolInput && negb (toolInput =? "{}"));
    [|exists EmptyString; now rewrite append_empty_r].
  destruct (negb (needsDisclosure 300 toolInput)); [eexists; reflexivity|].
  destruct (previewRemaining 300 toolInput) as [preview remaining].
  destruct (nonEmpty remaining); eexists; reflexivity.
Qed.

Section Agreement.

Context {Str : Strings} {V : Type} {J : JSON V}.

Lemma samePart_sentinel (shown reported : string) :
  samePart shown reported ->
  (shown = "Unknown message type" <-> reported = "Unknown message type").
Proof.
  intros [text _|item compact _|isError resultContent|].
  - reflexivity.
  - destruct (describeToolInput_prefix
                ("🔧 Using tool: " ++ ContentItem.Name item)
                (serializeInput MarshalIndent item)) as (rest & ->).
    split; intros E; discriminate E.
  - rewrite describeToolResult_disclosure.
    split; intros E; destruct isError; discriminate E.
  - split; intros E; discriminate E.
Qed.

Lemma same_kind_contents (msg : Message.t V) :
  Message.Type_ msg <> "assistant" -> Message.Type_ msg <> "user" ->
  snd (fst (extractCleanJSONContentWithErrorCheck msg))
  = snd (formatJSONMessage msg).
Proof.
  intros Na Nu.
  unfold formatJSONMessage, extractCleanJSONContentWithErrorCheck.
  destruct (Message.Type_ msg =? "system").
  { now destruct (Message.Subtype msg =? "init"). }
  destruct (String.eqb_spec (Message.Type_ msg) "assistant");
    [contradiction|].
  destruct (String.eqb_spec (Message.Type_ msg) "user");
    [contradiction|].
  reflexivity.
Qed.

Lemma samePart_reported_nonempty (shown reported : list string) :
  Forall2 samePart shown reported ->
  Forall (fun x => x <> EmptyString) reported.
Proof.
  induction 1 as [|a b shown reported Hab _ IH]; constructor; [|exact IH].
  now apply samePart_nonempty in Hab.
Qed.

Lemma parts_agree (shown reported : list string) :
  Forall2 samePart shown reported ->
  (Join shown nl = EmptyString <-> Join reported (nl ++ nl) = EmptyString)
  /\ (Join shown nl = "Unknown message type" <->
      Join reported (nl ++ nl) = "Unknown message type").
Proof.
  intros F. split; split; intros E.
  - apply Join_empty_nil in E;
      [|now apply (samePart_shown_nonempty _ reported)].
    subst shown. inversion F. reflexivity.
  - apply Join_empty_nil in E;
      [|now apply (samePart_reported_nonempty shown)].
    subst reported. inversion F. reflexivity.
  - apply Join_without_LF in E;
      [|simpl; lia|reflexivity|discriminate].
    subst shown. inversion F as [|a b s r Hab Hr]; subst.
    inversion Hr; subst. apply samePart_sentinel in Hab.
    now rewrite (proj1 Hab eq_refl).
  - apply Join_without_LF in E;
      [|simpl; lia|reflexivity|discriminate].
    subst reported. inversion F as [|a b s r Hab Hr]; subst.
    inversion Hr; subst. apply samePart_sentinel in Hab.
    now rewrite (proj2 Hab eq_refl).
Qed.

(** X7.  For every decoded event the transcript content is empty exactly
    when the annotation content is, and it is the literal
    ["Unknown message type"] exactly when the annotation content is: the
    entry of a decoded line tells whether the line is printed and whether
    it is annotated. *)
Theorem classifiers_agree_on_empty_and_unknown (msg : Message.t V) :
  (snd (formatJSONMessage msg) = EmptyString <->
   snd (fst (extractCleanJSONContentWithErrorCheck msg)) = EmptyString)
  /\ (snd (formatJSONMessage msg) = "Unknown message type" <->
      snd (fst (extractCleanJSONContentWithErrorCheck msg))
      = "Unknown message type").
Proof.
  destruct (String.eqb_spec (Message.Type_ msg) "assistant") as [Ea|Na].
  { destruct (content_parts msg) as (shown & reported & F & -> & ->);
      [auto|]. now apply parts_agree. }
  destruct (String.eqb_spec (Message.Type_ msg) "user") as [Eu|Nu].
  { destruct (content_parts msg) as (shown & reported & F & -> & ->);
      [auto|]. now apply parts_agree. }
  rewrite (same_kind_contents msg Na Nu). split; reflexivity.
Qed.

End Agreement.

(** ** The preview *)

(** X8.  When disclosure is needed the preview never has more than two
    lines: with more than two lines in the candidate it is exactly its
    first two lines, whatever their length; otherwise it is [T + 3] bytes,
    the first [T] bytes of the candidate and the ellipsis. *)
Theorem preview_is_at_most_two_lines (T : nat) (s : string) :
  ((2 < List.length (Split s LF))%nat ->
   List.length (Split (fst (previewRemaining T s)) LF) = 2%nat /\
   fst (previewRemaining T s) = Join (firstn 2 (Split s LF)) nl)
  /\ ((List.length (Split s LF) <= 2)%nat ->
      (T < String.length s)%nat ->
      String.length (fst (previewRemaining T s)) = (T + 3)%nat /\
      (List.length (Split (fst (previewRemaining T s)) LF) <= 2)%nat).
Proof.
  unfold previewRemaining. split.
  - intros Hl.
    replace (2 <? List.length (Split s LF))%nat with true
      by (symmetry; apply Nat.ltb_lt; exact Hl).
    cbn [fst]. split; [|reflexivity].
    pose proof (Split_pieces s) as P.
    destruct (Split s LF) as [|a [|b l]]; simpl in Hl; try lia.
    inversion P as [|? ? Ha P']; subst.
    inversion P' as [|? ? Hb _]; subst.
    change (firstn 2 (a :: b :: l)) with [a; b].
    change (Join [a; b] nl) with (a ++ nl ++ b).
    rewrite Split_length, !countLF_append, Ha, Hb. reflexivity.
  - intros Hl Hc.
    replace (2 <? List.length (Split s LF))%nat with false
      by (symmetry; apply Nat.ltb_ge; exact Hl).
    replace (T <? String.length s)%nat with true
      by (symmetry; apply Nat.ltb_lt; exact Hc).
    cbn [fst]. split.
    + rewrite length_append, substring_zero_length by lia. reflexivity.
    + rewrite Split_length in *. rewrite countLF_append.
      pose proof (substring_split T s ltac:(lia)) as E.
      apply (f_equal countLF) in E. rewrite countLF_append in E.
      simpl. lia.
Qed.

(** ** The transcript of a run *)

Section Transcript.

Context {Str : Strings} {V : Type} {J : JSON V} {O : OS}.

Lemma streamLines_printed (lines : list (string * Z)) (w : World) :
  printed (trace w) = flat_map printSingleEntry (entries (trace w)) ->
  printed (trace (streamLines w lines))
  = flat_map printSingleEntry (entries (trace (streamLines w lines))).
Proof.
  revert w. induction lines as [|[line now] rest IH]; intros w H;
    [exact H|].
  cbn [streamLines]. apply IH.
  rewrite handleLine_printed, handleLine_entries, flat_map_app, H.
  destruct (fst (parseLine (staticLineNum w) line now)) as [entry|];
    [|reflexivity].
  cbn [flat_map]. now rewrite app_nil_r.
Qed.

(** X9.  The transcript of a run is its entries printed one after the
    other, in order: nothing else reaches standard output, with or without
    capture. *)
Theorem transcript_is_the_entries_printed (scanner : Scanner.t) :
  printed (trace (parseAndStreamOutput initial scanner))
  = flat_map printSingleEntry
      (entries (trace (parseAndStreamOutput initial scanner)))
  /\ (forall outputFilename,
        Create outputFilename = None ->
        printed (trace (parseAndStreamOutputWithFile initial scanner
                          outputFilename))
        = flat_map printSingleEntry
            (entries (trace (parseAndStreamOutputWithFile initial scanner
                               outputFilename)))).
Proof.
  assert (P : printed (trace (parseAndStreamOutput initial scanner))
              = flat_map printSingleEntry
                  (entries (trace (parseAndStreamOutput initial scanner)))).
  { unfold parseAndStreamOutput.
    destruct (checkScannerErr_facts
                (streamLines initial (Scanner.lines scanner)) scanner)
      as (_ & He & Hp & _).
    cbv zeta in He, Hp. rewrite He, Hp.
    now apply streamLines_printed. }
  split; [exact P|].
  intros f C. destruct (withFile_others scanner f initial C) as [Ho _].
  rewrite <- printed_others, <- (entries_others (trace _)), Ho,
    printed_others, entries_others.
  exact P.
Qed.

End Transcript.
